(** * medbot: a shallow embedding of the three scripts

    [prepare_data.py] (PDF extractor), [ingest_data.py] (ingestion pipeline)
    and [main.py] (query server) are orchestration code: every heavy
    operation is a call into a library.  The embedding keeps the control
    flow of the scripts as written and takes the library calls as the
    fields of a class [Libs], one per script, so that each statement holds
    for every behaviour of the libraries.  One library class is written
    out, the text splitter of the ingestion ([Splitter]), for what is said
    of the chunks it makes.

    Python strings are modelled as [string]; every string the scripts test
    or build character by character is ASCII. *)

From Stdlib Require Import String Ascii List Bool Arith Lia DecimalString.
Import ListNotations.
Open Scope string_scope.

(** ** Python preliminaries *)

Module Py.

(** An instance of Python's [Exception]: its class name and [str(e)]. *)
Record Exception : Type := mkExc { exc_type : string; exc_str : string }.

(** Attribute access on [None]. *)
Definition AttributeError (attr : string) : Exception :=
    mkExc "AttributeError"
          ("'NoneType' object has no attribute '" ++ attr ++ "'").

Definition KeyError (key : string) : Exception :=
    mkExc "KeyError" ("'" ++ key ++ "'").

Definition ValueError (msg : string) : Exception :=
    mkExc "ValueError" msg.

Definition nl : string := String (ascii_of_nat 10) EmptyString.

(** [str(n)] for a non-negative integer. *)
Definition str_of_nat (n : nat) : string :=
    NilZero.string_of_uint (Nat.to_uint n).

(** [sep.join(xs)]. *)
Fixpoint join (sep : string) (xs : list string) : string :=
    match xs with
    | [] => ""
    | [x] => x
    | x :: rest => x ++ sep ++ join sep rest
    end.

(** Iterating over a [str] gives its characters, each a one-character
      [str]. *)
Fixpoint chars (s : string) : list string :=
    match s with
    | EmptyString => []
    | String c rest => String c EmptyString :: chars rest
    end.

(** Truth value of a [str] and of a [list]. *)
Definition str_bool (s : string) : bool :=
    match s with EmptyString => false | _ => true end.

Definition list_bool {A : Type} (xs : list A) : bool :=
    match xs with [] => false | _ => true end.

(** [c.lower()] on an ASCII character. *)
Definition lower_ascii (c : ascii) : ascii :=
    let n := nat_of_ascii c in
    if ((65 <=? n) && (n <=? 90))%nat then ascii_of_nat (n + 32) else c.

Fixpoint lower (s : string) : string :=
    match s with
    | EmptyString => EmptyString
    | String c rest => String (lower_ascii c) (lower rest)
    end.

(** [s.endswith(suffix)]. *)
Definition endswith (s suffix : string) : bool :=
    let n := String.length s in
    let m := String.length suffix in
    (m <=? n)%nat && String.eqb (substring (n - m) m s) suffix.

(** An asynchronous (or lazy) iterator as the consumer sees it: it hands
      out finitely many items and then either stops or raises. *)
Inductive Iterator (A : Type) : Type :=
  | Stop : Iterator A
  | Raises (e : Exception) : Iterator A
  | Next (a : A) (rest : Iterator A) : Iterator A.
Arguments Stop {A}.
Arguments Raises {A} e.
Arguments Next {A} a rest.

(** The items handed out before the iterator ends. *)
Fixpoint items {A : Type} (it : Iterator A) : list A :=
    match it with
    | Stop | Raises _ => []
    | Next a rest => a :: items rest
    end.

(** How the iteration ends: exhausted ([None]) or by raising. *)
Fixpoint ending {A : Type} (it : Iterator A) : option Exception :=
    match it with
    | Stop => None
    | Raises e => Some e
    | Next _ rest => ending rest
    end.

End Py.
Import Py.

(** ** Programs with a trace, a state and exceptions

    A run of a piece of Python code from a state [S] leaves a trace of
    observable events [E], a final state, and either returns a value or
    raises.  Events emitted before a [raise] stay in the trace, and
    assignments made before it stay in the state. *)

Module Eff.

Section Defs.
Context {E S : Type}.

Record Run (A : Type) : Type :=
      mkRun { trace : list E; final : S; outcome : Exception + A }.
Arguments mkRun {A}.
Arguments trace {A}.
Arguments final {A}.
Arguments outcome {A}.

Definition Prog (A : Type) : Type := S -> Run A.

Definition ret {A} (a : A) : Prog A :=
      fun s => mkRun [] s (inr a).

Definition raise {A} (e : Exception) : Prog A :=
      fun s => mkRun [] s (inl e).

Definition bind {A B} (m : Prog A) (k : A -> Prog B) : Prog B :=
      fun s =>
        let r := m s in
        match outcome r with
        | inl e => mkRun (trace r) (final r) (inl e)
        | inr a =>
            let r' := k a (final r) in
            mkRun (trace r ++ trace r')%list (final r') (outcome r')
        end.

(** An observable event. *)
Definition emit (e : E) : Prog unit :=
      fun s => mkRun [e] s (inr tt).

(** A call into a library: the event is recorded, then the call
        returns or raises. *)
Definition call {A} (e : E) (result : Exception + A) : Prog A :=
      fun s => mkRun [e] s result.

(** A library result without an event of its own. *)
Definition lift {A} (result : Exception + A) : Prog A :=
      fun s => mkRun [] s result.

Definition gets {A} (f : S -> A) : Prog A :=
      fun s => mkRun [] s (inr (f s)).

Definition modify (f : S -> S) : Prog unit :=
      fun s => mkRun [] (f s) (inr tt).

(** [try: body  except Exception as e: handler e]. *)
Definition try_except {A} (body : Prog A) (handler : Exception -> Prog A)
      : Prog A :=
      fun s =>
        let r := body s in
        match outcome r with
        | inl e =>
            let r' := handler e (final r) in
            mkRun (trace r ++ trace r')%list (final r') (outcome r')
        | inr a => r
        end.

(** [for x in xs: body x]. *)
Fixpoint for_each {A} (xs : list A) (body : A -> Prog unit) : Prog unit :=
      match xs with
      | [] => ret tt
      | x :: rest => bind (body x) (fun _ => for_each rest body)
      end.

(** [for x in it: body x] and [async for x in it: body x] over an
        iterator that may raise. *)
Fixpoint for_iter {A} (it : Iterator A) (body : A -> Prog unit)
      : Prog unit :=
      match it with
      | Stop => ret tt
      | Raises e => raise e
      | Next a rest => bind (body a) (fun _ => for_iter rest body)
      end.

(** The run returned normally (no exception reached the caller). *)
Definition returns {A} (r : Run A) : bool :=
      match outcome r with inr _ => true | inl _ => false end.

End Defs.

Arguments Run : clear implicits.
Arguments Prog : clear implicits.
Arguments mkRun {E S A}.
Arguments trace {E S A}.
Arguments final {E S A}.
Arguments outcome {E S A}.

Declare Scope prog_scope.
Delimit Scope prog_scope with prog.
Notation "x <- m ;; k" := (bind m (fun x => k))
    (at level 61, m at next level, right associativity) : prog_scope.
Notation "m ;; k" := (bind m (fun _ => k))
    (at level 61, right associativity) : prog_scope.

End Eff.
Import Eff.


(** ** Values of the LangChain library that the scripts read *)

(** A document (the loaded text, a chunk of it, a retrieved chunk); only
    [page_content] is read. *)
Record Document : Type := mkDocument { page_content : string }.

(** A chunk of the model's streamed answer; only [content] is read. *)
Record AIMessageChunk : Type := mkChunk { content : string }.

(** ** main.py: the query server *)

Module Main.

(** What main.py imports and calls but does not define, and the part of the
    host it reads.  A constructor or call that can fail returns a sum whose
    left side is the exception raised. *)
Class Libs : Type := {
  (** Handle types of the vector store, the chat model and the embedding
      function. *)
  Chroma : Type;
  ChatOllama : Type;
  Embeddings : Type;
  (** [os.path.exists(path)]. *)
  os_path_exists : string -> bool;
  (** [SentenceTransformerEmbeddings(model_name=, cache_folder=)]. *)
  SentenceTransformerEmbeddings : string -> string -> Exception + Embeddings;
  (** [Chroma(persist_directory=, embedding_function=, collection_name=)]. *)
  Chroma_new : string -> Embeddings -> string -> Exception + Chroma;
  (** [ChatOllama(model=)]. *)
  ChatOllama_new : string -> Exception + ChatOllama;
  (** Truth value of a vector-store handle, as Python's truth test of the
      object gives it ([not vector_store] negates it). *)
  Chroma_bool : Chroma -> bool;
  (** [await vs.asimilarity_search(query, k=k)]. *)
  asimilarity_search : Chroma -> string -> nat -> Exception + list Document;
  (** [llm.astream(prompt)], as the [async for] over it proceeds. *)
  astream : ChatOllama -> string -> Iterator AIMessageChunk;
  (** [GoogleTranslator(source=, target=).translate(text)]. *)
  GoogleTranslator_translate : string -> string -> string -> Exception + string
}.

(** [PromptTemplate(template=, input_variables=)]. *)
Record PromptTemplate : Type :=
  mkPromptTemplate { template : string; input_variables : list string }.

(** Keyword arguments of a [format] call. *)
Definition Kwargs : Type := list (string * string).

Fixpoint kwarg (kw : Kwargs) (name : string) : option string :=
  match kw with
  | [] => None
  | (k, v) :: rest => if String.eqb k name then Some v else kwarg rest name
  end.

Definition prepend (c : ascii) (r : Exception + string) : Exception + string :=
  match r with inl e => inl e | inr s => inr (String c s) end.

Definition prepend_str (v : string) (r : Exception + string)
  : Exception + string :=
  match r with inl e => inl e | inr s => inr (v ++ s) end.

(** [template.format] with keyword arguments [kw], for the f-string templates of [PromptTemplate]:
    literal text, the escapes [{{] and [}}], and replacement fields
    [{name}] looked up in the keyword arguments (a missing name raises
    [KeyError]).  The inserted values are not scanned again.  [field] is
    [None] in literal text and holds the name read so far inside a
    replacement field. *)
Fixpoint vformat (kw : Kwargs) (s : string) (field : option string)
  : Exception + string :=
  match s with
  | EmptyString =>
      match field with
      | None => inr ""
      | Some _ => inl (ValueError "expected '}' before end of string")
      end
  | String c rest =>
      match field with
      | Some name =>
          if Ascii.eqb c "}" then
            match kwarg kw name with
            | Some v => prepend_str v (vformat kw rest None)
            | None => inl (KeyError name)
            end
          else vformat kw rest (Some (name ++ String c ""))
      | None =>
          if Ascii.eqb c "{" then
            match rest with
            | String c' rest' =>
                if Ascii.eqb c' "{" then prepend "{" (vformat kw rest' None)
                else vformat kw rest (Some "")
            | EmptyString => vformat kw rest (Some "")
            end
          else if Ascii.eqb c "}" then
            match rest with
            | String c' rest' =>
                if Ascii.eqb c' "}" then prepend "}" (vformat kw rest' None)
                else inl (ValueError "Single '}' encountered in format string")
            | EmptyString =>
                inl (ValueError "Single '}' encountered in format string")
            end
          else prepend c (vformat kw rest None)
      end
  end.

Definition format (pt : PromptTemplate) (kw : Kwargs) : Exception + string :=
  vformat kw (template pt) None.

(** *** Constants *)

Definition CHROMA_PERSIST_DIR : string := "chroma_db".
Definition COLLECTION_NAME : string := "medical_knowledge".
Definition EMBEDDING_MODEL_NAME : string :=
  "sentence-transformers/all-MiniLM-L6-v2".
Definition MODEL_CACHE_DIR : string := "model_cache".
Definition LLM_MODEL_NAME : string := "phi3:mini".

(** The text before [{context}], between the two fields and after
    [{question}] in the template of [startup_event]. *)
Definition template_head : string :=
  nl ++ "You are ArogyaAi, an AI medical assistant developed by Gunaji. Your role is to provide helpful, safe, and evidence-based medical information."
  ++ nl ++ "Your answers should be helpful but concise."
  ++ nl ++ "You must answer the user's question based *only* on the context provided below."
  ++ nl ++ "If the context does not contain the answer, state that you do not have enough information and advise the user to consult a healthcare professional."
  ++ nl ++ "Do not make up information or provide medical advice, diagnoses, or prescriptions."
  ++ nl
  ++ nl ++ "Context:"
  ++ nl.

Definition template_middle : string :=
  nl
  ++ nl ++ "Question:"
  ++ nl.

Definition template_tail : string :=
  nl
  ++ nl ++ "Answer:"
  ++ nl.

Definition startup_template : string :=
  template_head ++ "{context}" ++ template_middle ++ "{question}"
  ++ template_tail.

Definition error_message : string :=
  "Vector store is not initialized. Please check server startup logs.".

Definition no_context_message : string :=
  "I do not have enough information about that topic to provide an answer. Disclaimer: I am an Al assistant and not a substitute for professional medical advice. Please consult a qualified healthcare provider for any health concerns.".

(** The body of one server-sent event: [f"data: {x}\n\n"]. *)
Definition sse (x : string) : string := "data: " ++ x ++ nl ++ nl.

(** What a run of the server code does that can be observed from outside. *)
Inductive Event : Type :=
| Print (line : string)
| Yield (event : string)
| Sleep
| LoadEmbeddings (model_name cache_folder : string)
| OpenChroma (persist_directory collection_name : string)
| NewChatOllama (model : string)
| SimilaritySearch (query : string) (k : nat)
| Astream (prompt : string)
| Translate (source target text : string).

(** The events yielded to the consumer of a generator, in order. *)
Fixpoint yields (t : list Event) : list string :=
  match t with
  | [] => []
  | Yield s :: rest => s :: yields rest
  | _ :: rest => yields rest
  end.

Definition is_search (e : Event) : bool :=
  match e with SimilaritySearch _ _ => true | _ => false end.

Definition is_llm_call (e : Event) : bool :=
  match e with Astream _ => true | _ => false end.

(** A JSON object whose values are strings. *)
Definition Json : Type := list (string * string).

Fixpoint json_get (o : Json) (key : string) : option string :=
  match o with
  | [] => None
  | (k, v) :: rest => if String.eqb k key then Some v else json_get rest key
  end.

(** [class TranslationRequest(BaseModel)]. *)
Record TranslationRequest : Type := mkTranslationRequest {
  text : string;
  target_lang : string;
  source_lang : string
}.

(** Validation of a request body against [TranslationRequest]: [text] and
    [target_lang] are required, [source_lang] has the default ["auto"]. *)
Definition TranslationRequest_validate (body : Json)
  : option TranslationRequest :=
  match json_get body "text", json_get body "target_lang" with
  | Some t, Some tl =>
      Some (mkTranslationRequest t tl
              (match json_get body "source_lang" with
               | Some sl => sl
               | None => "auto"
               end))
  | _, _ => None
  end.

(** An HTTP response: status and body. *)
Inductive Body : Type :=
| JsonBody (o : Json)
| TextBody (s : string).

Record Response : Type := mkResponse { status_code : nat; body : Body }.

Section Code.
Context {L : Libs}.

(** The three module-level singletons. *)
Record Globals : Type := mkGlobals {
  vector_store : option Chroma;
  llm : option ChatOllama;
  prompt_template : option PromptTemplate
}.

(** The module as loaded: [vector_store = llm = prompt_template = None]. *)
Definition module_globals : Globals := mkGlobals None None None.

Definition set_vector_store (v : Chroma) (g : Globals) : Globals :=
  mkGlobals (Some v) (llm g) (prompt_template g).
Definition set_llm (v : ChatOllama) (g : Globals) : Globals :=
  mkGlobals (vector_store g) (Some v) (prompt_template g).
Definition set_prompt_template (v : PromptTemplate) (g : Globals) : Globals :=
  mkGlobals (vector_store g) (llm g) (Some v).

Definition print (line : string) : Prog Event Globals unit :=
  emit (Print line).
Definition yield (event : string) : Prog Event Globals unit :=
  emit (Yield event).

(** [startup_event()]. *)
Definition startup_event : Prog Event Globals unit :=
  (print "--- Server starting up: Initializing RAG components ---" ;;
   if negb (os_path_exists CHROMA_PERSIST_DIR) then
     print ("Error: ChromaDB directory '" ++ CHROMA_PERSIST_DIR
            ++ "' not found.")
   else
     (embedding_function <-
        call (LoadEmbeddings EMBEDDING_MODEL_NAME MODEL_CACHE_DIR)
             (SentenceTransformerEmbeddings EMBEDDING_MODEL_NAME
                                            MODEL_CACHE_DIR) ;;
      vs <- call (OpenChroma CHROMA_PERSIST_DIR COLLECTION_NAME)
                 (Chroma_new CHROMA_PERSIST_DIR embedding_function
                             COLLECTION_NAME) ;;
      modify (set_vector_store vs) ;;
      print "Vector store loaded." ;;
      modify (set_prompt_template
                (mkPromptTemplate startup_template
                                  ["context"; "question"])) ;;
      model <- call (NewChatOllama LLM_MODEL_NAME)
                    (ChatOllama_new LLM_MODEL_NAME) ;;
      modify (set_llm model) ;;
      print ("LLM '" ++ LLM_MODEL_NAME ++ "' initialized.") ;;
      print "--- RAG components successfully initialized. Server is ready. ---"))%prog.

(** Truth value of the global [vector_store]: [None] is false. *)
Definition vector_store_bool (v : option Chroma) : bool :=
  match v with
  | None => false
  | Some vs => Chroma_bool vs
  end.

(** [await vector_store.asimilarity_search(query, k=k)]. *)
Definition search (query : string) (k : nat)
  : Prog Event Globals (list Document) :=
  (v <- gets vector_store ;;
   match v with
   | None => raise (AttributeError "asimilarity_search")
   | Some vs =>
       call (SimilaritySearch query k) (asimilarity_search vs query k)
   end)%prog.

(** [prompt_template.format(context=, question=)]. *)
Definition format_prompt (context question : string)
  : Prog Event Globals string :=
  (p <- gets prompt_template ;;
   match p with
   | None => raise (AttributeError "format")
   | Some pt => lift (format pt [("context", context); ("question", question)])
   end)%prog.

(** [llm.astream(prompt)]. *)
Definition llm_astream (prompt : string)
  : Prog Event Globals (Iterator AIMessageChunk) :=
  (m <- gets llm ;;
   match m with
   | None => raise (AttributeError "astream")
   | Some model =>
       emit (Astream prompt) ;;
       ret (astream model prompt)
   end)%prog.

(** The [try] block of [stream_chat_response]. *)
Definition chat_try (query : string) : Prog Event Globals unit :=
  (print ("Searching for context for: '" ++ query ++ "'") ;;
   retrieved_docs <- search query 5 ;;
   if negb (list_bool retrieved_docs) then
     (print "No relevant context found in the database." ;;
      for_each (chars no_context_message)
               (fun char => yield (sse char) ;; emit Sleep))
   else
     (print ("Found " ++ str_of_nat (List.length retrieved_docs)
             ++ " relevant documents.") ;;
      let context_str :=
        join (nl ++ nl) (map page_content retrieved_docs) in
      formatted_prompt <- format_prompt context_str query ;;
      llm_stream <- llm_astream formatted_prompt ;;
      for_iter llm_stream (fun chunk => yield (sse (content chunk)))))%prog.

(** Its [except Exception as e] block. *)
Definition chat_except (e : Exception) : Prog Event Globals unit :=
  (print ("Error during streaming: " ++ exc_str e) ;;
   yield (sse ("An error occurred: " ++ exc_str e)))%prog.

(** [stream_chat_response(query)], run to exhaustion by its consumer. *)
Definition stream_chat_response (query : string) : Prog Event Globals unit :=
  (v <- gets vector_store ;;
   if negb (vector_store_bool v) then
     yield (sse error_message)
   else
     try_except (chat_try query) chat_except)%prog.

(** [translate_text(request)]. *)
Definition translate_text (request : TranslationRequest)
  : Prog Event Globals Json :=
  try_except
    (result <-
       call (Translate (source_lang request) (target_lang request)
                       (text request))
            (GoogleTranslator_translate (source_lang request)
                                        (target_lang request)
                                        (text request)) ;;
     ret [("translated_text", result)])%prog
    (fun e =>
       print ("Google Translate Error: " ++ exc_str e) ;;
       ret [("error", exc_str e)])%prog.

(** What the framework sends for a handler that returns a dict (status 200,
    the dict as JSON) or lets an exception escape (status 500). *)
Definition respond (r : Run Event Globals Json) : Response :=
  match outcome r with
  | inr o => mkResponse 200 (JsonBody o)
  | inl _ => mkResponse 500 (TextBody "Internal Server Error")
  end.

(** [POST /translate] with a JSON body. *)
Definition post_translate (request_body : Json) (g : Globals) : Response :=
  match TranslationRequest_validate request_body with
  | Some request => respond (translate_text request g)
  | None => mkResponse 422 (JsonBody [("detail", "validation error")])
  end.

End Code.

End Main.


(** ** prepare_data.py: the PDF extractor *)

Module PrepareData.

(** The host and the PDF library as the script uses them. *)
Class Libs : Type := {
  (** A page of an opened PDF. *)
  Page : Type;
  (** [os.path.exists(path)]. *)
  os_path_exists : string -> bool;
  (** [os.listdir(path)]. *)
  os_listdir : string -> Exception + list string;
  (** [os.path.join(dir, name)]. *)
  os_path_join : string -> string -> string;
  (** [PdfReader(path)] followed by the iteration over [reader.pages]. *)
  PdfReader : string -> Exception + Iterator Page;
  (** [page.extract_text()]. *)
  extract_text : Page -> Exception + string;
  (** [open(path, "w", encoding="utf-8")]: whether the file can be opened
      for writing. *)
  open_w : string -> Exception + unit
}.

Definition PDF_SOURCE_DIR : string := "medical_data".
Definition OUTPUT_TEXT_FILE : string := "knowledge_base.txt".

Inductive Event : Type :=
| Print (line : string)
| OpenPdf (path : string)
| WriteFile (path contents : string).

Definition is_write (e : Event) : bool :=
  match e with WriteFile _ _ => true | _ => false end.

(** The PDF files opened during a run, in order. *)
Fixpoint opened (t : list Event) : list string :=
  match t with
  | [] => []
  | OpenPdf path :: rest => path :: opened rest
  | _ :: rest => opened rest
  end.

(** The lines printed during a run, in order. *)
Fixpoint printed (t : list Event) : list string :=
  match t with
  | [] => []
  | Print line :: rest => line :: printed rest
  | _ :: rest => printed rest
  end.

(** The text files on disk (path and contents), and the local variable
    [all_text] of [extract_text_from_pdfs], which keeps what was appended
    to it when a later page raises. *)
Record State : Type := mkState {
  files : list (string * string);
  all_text : string
}.

Definition set_all_text (v : string) (s : State) : State :=
  mkState (files s) v.

(** [f.write(contents)] on a file opened with mode ["w"]: the file holds
    exactly [contents] afterwards. *)
Definition write_file (path contents : string) (s : State) : State :=
  mkState ((path, contents)
             :: filter (fun f => negb (String.eqb (fst f) path)) (files s))
          (all_text s).

(** [f.lower().endswith(".pdf")]. *)
Definition is_pdf (f : string) : bool := endswith (lower f) ".pdf".

Section Code.
Context {L : Libs}.

Definition print (line : string) : Prog Event State unit :=
  emit (Print line).

(** The body of [for page in reader.pages]. *)
Definition extract_page (page : Page) : Prog Event State unit :=
  (text <- lift (extract_text page) ;;
   if str_bool text then
     modify (fun s => set_all_text (all_text s ++ (text ++ nl ++ nl)) s)
   else ret tt)%prog.

(** The body of [for filename in pdf_files]. *)
Definition extract_file (pdf_dir filename : string) : Prog Event State unit :=
  let path := os_path_join pdf_dir filename in
  try_except
    (reader <- call (OpenPdf path) (PdfReader path) ;;
     for_iter reader extract_page ;;
     print (" - Successfully extracted text from " ++ filename))%prog
    (fun e =>
       print (" - Could not read " ++ filename ++ ": " ++ exc_str e)).

(** [extract_text_from_pdfs(pdf_dir)]. *)
Definition extract_text_from_pdfs (pdf_dir : string)
  : Prog Event State string :=
  (modify (set_all_text "") ;;
   print ("Scanning for PDF files in '" ++ pdf_dir ++ "'...") ;;
   if negb (os_path_exists pdf_dir) then
     (print ("Error: Directory '" ++ pdf_dir
             ++ "' not found. Please create it and add your medical PDFs.") ;;
      ret "")
   else
     (names <- lift (os_listdir pdf_dir) ;;
      let pdf_files := filter is_pdf names in
      if negb (list_bool pdf_files) then
        (print ("No PDF files found in '" ++ pdf_dir ++ "'.") ;;
         ret "")
      else
        (print ("Found " ++ str_of_nat (List.length pdf_files)
                ++ " PDF(s). Extracting text...") ;;
         for_each pdf_files (extract_file pdf_dir) ;;
         gets all_text)))%prog.

(** [main()]. *)
Definition main : Prog Event State unit :=
  (extracted_text <- extract_text_from_pdfs PDF_SOURCE_DIR ;;
   if str_bool extracted_text then
     (lift (open_w OUTPUT_TEXT_FILE) ;;
      emit (WriteFile OUTPUT_TEXT_FILE extracted_text) ;;
      modify (write_file OUTPUT_TEXT_FILE extracted_text) ;;
      print (nl ++ "Successfully extracted and saved text to '"
             ++ OUTPUT_TEXT_FILE ++ "'.") ;;
      print ("Total characters extracted: "
             ++ str_of_nat (String.length extracted_text)))
   else
     print (nl ++ "No text was extracted. Exiting."))%prog.

(** *** What the extractor is expected to produce

    The texts of the pages of an opened PDF, up to the page whose
    extraction fails, if one does; pages without text are left out. *)
Fixpoint page_texts (pages : Iterator Page) : list string :=
  match pages with
  | Stop | Raises _ => []
  | Next page rest =>
      match extract_text page with
      | inl _ => []
      | inr text =>
          ((if str_bool text then [text] else []) ++ page_texts rest)%list
      end
  end.

(** The exception that ends the reading of the pages, if any. *)
Fixpoint pages_failure (pages : Iterator Page) : option Exception :=
  match pages with
  | Stop => None
  | Raises e => Some e
  | Next page rest =>
      match extract_text page with
      | inl e => Some e
      | inr _ => pages_failure rest
      end
  end.

Definition file_texts (path : string) : list string :=
  match PdfReader path with
  | inl _ => []
  | inr pages => page_texts pages
  end.

Definition file_failure (path : string) : option Exception :=
  match PdfReader path with
  | inl e => Some e
  | inr pages => pages_failure pages
  end.

(** The line printed for a file: success, or the failure that was caught. *)
Definition file_report (filename path : string) : string :=
  match file_failure path with
  | None => " - Successfully extracted text from " ++ filename
  | Some e => " - Could not read " ++ filename ++ ": " ++ exc_str e
  end.

(** Texts put together with a blank line between them, and one more blank
    line after the last. *)
Definition joined (texts : list string) : string :=
  match texts with
  | [] => ""
  | _ => join (nl ++ nl) texts ++ nl ++ nl
  end.

End Code.

End PrepareData.


(** ** ingest_data.py: the ingestion pipeline *)

Module IngestData.

(** [RecursiveCharacterTextSplitter(chunk_size=, chunk_overlap=)]. *)
Record TextSplitter : Type :=
  RecursiveCharacterTextSplitter { chunk_size : nat; chunk_overlap : nat }.

(** The libraries as the script uses them.  [Store] is what the vector
    store keeps on disk under its persist directory, [Db] the handle that
    [Chroma.from_documents] returns. *)
Class Libs : Type := {
  Embeddings : Type;
  Store : Type;
  Db : Type;
  (** [TextLoader(path, encoding="utf-8").load()]. *)
  TextLoader_load : string -> Exception + list Document;
  (** [text_splitter.split_documents(documents)]. *)
  split_documents : TextSplitter -> list Document -> Exception + list Document;
  (** [os.makedirs(path)]. *)
  os_makedirs : string -> Exception + unit;
  (** [SentenceTransformerEmbeddings(model_name=, cache_folder=)]. *)
  SentenceTransformerEmbeddings : string -> string -> Exception + Embeddings;
  (** [Chroma.from_documents(documents=, embedding=, persist_directory=,
      collection_name=)]: what it leaves on disk, and whether it returns
      the handle or raises. *)
  Chroma_from_documents :
    list Document -> Embeddings -> string -> string -> Store ->
    Store * (Exception + Db);
  (** [db._collection.count()]. *)
  collection_count : Db -> Exception + nat
}.

Definition KNOWLEDGE_BASE_FILE : string := "knowledge_base.txt".
Definition CHROMA_PERSIST_DIR : string := "chroma_db".
Definition COLLECTION_NAME : string := "medical_knowledge".
Definition EMBEDDING_MODEL_NAME : string :=
  "sentence-transformers/all-MiniLM-L6-v2".
Definition MODEL_CACHE_DIR : string := "model_cache".

Inductive Event : Type :=
| Print (line : string)
| Load (path : string)
| Split (splitter : TextSplitter) (documents : list Document)
| Makedirs (path : string)
| LoadEmbeddings (model_name cache_folder : string)
| FromDocuments (documents : list Document)
                (persist_directory collection_name : string).

(** The steps after loading: splitting, preparing the model cache, loading
    the embedding model, writing to the vector store. *)
Definition is_pipeline_step (e : Event) : bool :=
  match e with
  | Split _ _ | Makedirs _ | LoadEmbeddings _ _ | FromDocuments _ _ _ => true
  | Print _ | Load _ => false
  end.

Section Code.
Context {L : Libs}.

(** The disk as the script sees it: the persisted vector store and the
    directories that exist. *)
Record Disk : Type := mkDisk {
  chroma_db : Store;
  dirs : list string
}.

Definition os_path_exists (path : string) (d : Disk) : bool :=
  existsb (String.eqb path) (dirs d).

Definition print (line : string) : Prog Event Disk unit :=
  emit (Print line).

(** [Chroma.from_documents(...)] run against the disk. *)
Definition from_documents (texts : list Document) (embedding : Embeddings)
  : Prog Event Disk Db :=
  fun d =>
    let r := Chroma_from_documents texts embedding CHROMA_PERSIST_DIR
                                   COLLECTION_NAME (chroma_db d) in
    mkRun [FromDocuments texts CHROMA_PERSIST_DIR COLLECTION_NAME]
          (mkDisk (fst r) (dirs d)) (snd r).

(** The [try] statement that opens [main]: the loaded documents, or [None]
    when the [except] block was taken (which ends in [return]). *)
Definition load_knowledge_base : Prog Event Disk (option (list Document)) :=
  try_except
    (documents <- call (Load KNOWLEDGE_BASE_FILE)
                       (TextLoader_load KNOWLEDGE_BASE_FILE) ;;
     print ("Successfully loaded '" ++ KNOWLEDGE_BASE_FILE ++ "'.") ;;
     ret (Some documents))%prog
    (fun e =>
       print ("Error loading knowledge base file: " ++ exc_str e) ;;
       ret None)%prog.

(** [text_splitter], as [main] builds it. *)
Definition text_splitter : TextSplitter :=
  RecursiveCharacterTextSplitter 1000 200.

(** [main()] after the documents are loaded. *)
Definition ingest (documents : list Document) : Prog Event Disk unit :=
  (texts <- call (Split text_splitter documents)
                 (split_documents text_splitter documents) ;;
   print ("Split document into " ++ str_of_nat (List.length texts)
          ++ " chunks.") ;;
   print ("Loading embedding model: '" ++ EMBEDDING_MODEL_NAME ++ "'...") ;;
   cached <- gets (os_path_exists MODEL_CACHE_DIR) ;;
   (if negb cached then
      (call (Makedirs MODEL_CACHE_DIR) (os_makedirs MODEL_CACHE_DIR) ;;
       modify (fun d => mkDisk (chroma_db d) (MODEL_CACHE_DIR :: dirs d)))
    else ret tt) ;;
   embedding_function <-
     call (LoadEmbeddings EMBEDDING_MODEL_NAME MODEL_CACHE_DIR)
          (SentenceTransformerEmbeddings EMBEDDING_MODEL_NAME
                                         MODEL_CACHE_DIR) ;;
   print "Embedding model loaded." ;;
   print ("Creating/loading persistent vector store at '"
          ++ CHROMA_PERSIST_DIR ++ "'...") ;;
   db <- from_documents texts embedding_function ;;
   print "--- Data Ingestion Complete ---" ;;
   count <- lift (collection_count db) ;;
   print ("Vector store created with " ++ str_of_nat count
          ++ " documents.") ;;
   print ("Database saved to '" ++ CHROMA_PERSIST_DIR ++ "'."))%prog.

(** [main()]. *)
Definition main : Prog Event Disk unit :=
  (print "--- Starting Data Ingestion Process ---" ;;
   loaded <- load_knowledge_base ;;
   match loaded with
   | None => ret tt
   | Some documents => ingest documents
   end)%prog.

End Code.

End IngestData.



(** ** The text splitter of the ingestion *)

Module Splitter.
Local Open Scope list_scope.

(** Modelled from the spec: the library class [RecursiveCharacterTextSplitter],
    which [ingest_data.py] configures and calls and whose code is not part
    of the repository.  The specification describes it as a recursive
    boundary-aware splitter that prefers paragraph and line boundaries
    before falling back to raw character cuts, with chunks of nominal size
    [chunk_size] overlapping by [chunk_overlap].  The definitions of this
    module follow the library's algorithm for that description, with the
    defaults the script leaves in place: separators blank line, newline,
    space and the empty string, the separator kept at the start of the
    piece that follows it, chunks stripped of surrounding whitespace and
    empty chunks dropped.  A text is the list of its characters, one
    [ascii] per character (code points below 256). *)
Definition Text : Type := list ascii.

(** Modelled from the spec: [text.startswith(p)]. *)
Fixpoint is_prefix (p t : Text) : bool :=
  match p, t with
  | [], _ => true
  | _ :: _, [] => false
  | a :: p', b :: t' => Ascii.eqb a b && is_prefix p' t'
  end.

(** Modelled from the spec: [re.search(re.escape(sep), text)], whether the
    separator occurs in the text. *)
Fixpoint occurs (sep t : Text) : bool :=
  is_prefix sep t
  || match t with
     | [] => false
     | _ :: t' => occurs sep t'
     end.

(** Modelled from the spec: the text cut before every occurrence of the
    separator, from left to right without overlap; [cur] is the piece being
    read and [skip] counts the characters of a separator just met that are
    still to be copied into it. *)
Fixpoint scan (sep t : Text) (skip : nat) (cur : Text) : list Text :=
  match t with
  | [] => [cur]
  | c :: rest =>
      match skip with
      | S k => scan sep rest k (cur ++ [c])
      | 0 =>
          if is_prefix sep t
          then cur :: scan sep rest (List.length sep - 1) [c]
          else scan sep rest 0 (cur ++ [c])
      end
  end.

(** Modelled from the spec: whether a string is the empty string. *)
Definition is_empty (t : Text) : bool :=
  match t with [] => true | _ => false end.

(** Modelled from the spec: [_split_text_with_regex(text, separator,
    keep_separator=True)]: the pieces between separators, each separator at
    the start of the piece after it; the characters one by one for the
    empty separator; empty pieces are dropped. *)
Definition split_text_with_regex (text separator : Text) : list Text :=
  filter (fun s => negb (is_empty s))
         (match separator with
          | [] => map (fun c => [c]) text
          | _ => scan separator text 0 []
          end).

(** Modelled from the spec: [c.isspace()] for a character below 256. *)
Definition is_space (c : ascii) : bool :=
  existsb (Nat.eqb (nat_of_ascii c))
          [9; 10; 11; 12; 13; 28; 29; 30; 31; 32; 133; 160].

(** Modelled from the spec: [text.lstrip()]. *)
Fixpoint lstrip (t : Text) : Text :=
  match t with
  | c :: rest => if is_space c then lstrip rest else t
  | [] => []
  end.

(** Modelled from the spec: [text.strip()]. *)
Definition strip (t : Text) : Text := rev (lstrip (rev (lstrip t))).

(** Modelled from the spec: [separator.join(docs)]. *)
Fixpoint join (separator : Text) (docs : list Text) : Text :=
  match docs with
  | [] => []
  | [d] => d
  | d :: rest => d ++ separator ++ join separator rest
  end.

(** Modelled from the spec: [_join_docs(docs, separator)]: the joined and
    stripped text, [None] when nothing is left. *)
Definition join_docs (docs : list Text) (separator : Text) : option Text :=
  let text := strip (join separator docs) in
  if is_empty text then None else Some text.

(** Modelled from the spec: [if doc is not None: docs.append(doc)]. *)
Definition append_doc (docs : list Text) (doc : option Text) : list Text :=
  match doc with
  | Some d => docs ++ [d]
  | None => docs
  end.

Section Merge.
Variables (chunk_size chunk_overlap : nat) (separator : Text).

(** Modelled from the spec: what joining one more piece to [docs] costs:
    the separator's length unless [docs] is empty. *)
Definition separator_cost (docs : list Text) : nat :=
  match docs with
  | [] => 0
  | _ => List.length separator
  end.

(** Modelled from the spec: the [while] loop of [_merge_splits]: pieces
    leave the front of the current chunk until what stays is no longer than
    the overlap and leaves room for the next piece of length [len]. *)
Fixpoint drop_front (current_doc : list Text) (total len : nat)
  : list Text * nat :=
  match current_doc with
  | [] => ([], total)
  | first :: rest =>
      if Nat.ltb chunk_overlap total
         || (Nat.ltb chunk_size (total + len + separator_cost current_doc)
             && Nat.ltb 0 total)
      then drop_front rest (total - (List.length first + separator_cost rest))
                      len
      else (current_doc, total)
  end.

(** Modelled from the spec: the [for] loop of [_merge_splits] over the
    pieces still to place, with the chunk being filled, its length and the
    chunks made so far. *)
Fixpoint merge_loop (splits : list Text) (current_doc : list Text)
         (total : nat) (docs : list Text) : list Text :=
  match splits with
  | [] => append_doc docs (join_docs current_doc separator)
  | d :: rest =>
      let len := List.length d in
      let '(docs', current', total') :=
        if Nat.ltb chunk_size (total + len + separator_cost current_doc)
        then
          match current_doc with
          | [] => (docs, current_doc, total)
          | _ =>
              let '(c, t) := drop_front current_doc total len in
              (append_doc docs (join_docs current_doc separator), c, t)
          end
        else (docs, current_doc, total) in
      merge_loop rest (current' ++ [d])
                 (total' + len + separator_cost current') docs'
  end.

(** Modelled from the spec: [_merge_splits(splits, separator)]. *)
Definition merge_splits (splits : list Text) : list Text :=
  merge_loop splits [] 0 [].

End Merge.

Section Recursive.
Variables (chunk_size chunk_overlap : nat).

(** Modelled from the spec: the pieces collected so far are merged into
    chunks, if there are any; they are joined with the empty string, the
    separators being kept in the pieces. *)
Definition merge_good (good_splits : list Text) : list Text :=
  match good_splits with
  | [] => []
  | _ => merge_splits chunk_size chunk_overlap [] good_splits
  end.

(** Modelled from the spec: the loop of [_split_text] over the pieces:
    pieces shorter than the chunk size are collected and merged, a longer
    one is split again with the separators that are left ([deeper]), or
    kept as it is when none is left. *)
Fixpoint split_loop (deeper : option (Text -> list Text))
         (splits good_splits : list Text) : list Text :=
  match splits with
  | [] => merge_good good_splits
  | s :: rest =>
      if Nat.ltb (List.length s) chunk_size
      then split_loop deeper rest (good_splits ++ [s])
      else
        merge_good good_splits
        ++ match deeper with
           | None => [s]
           | Some split_deeper => split_deeper s
           end
        ++ split_loop deeper rest []
  end.

(** Modelled from the spec: [_split_text(text, separators)]: the first
    separator that occurs in the text (or the empty one, or the last one)
    cuts it, and the separators after it serve for the pieces that are too
    long. *)
Fixpoint split_text_rec (separators : list Text) (text : Text) : list Text :=
  match separators with
  | [] => []
  | s :: rest =>
      let deeper := match rest with
                    | [] => None
                    | _ => Some (split_text_rec rest)
                    end in
      if is_empty s then split_loop None (split_text_with_regex text s) []
      else if occurs s text
           then split_loop deeper (split_text_with_regex text s) []
           else match rest with
                | [] => split_loop None (split_text_with_regex text s) []
                | _ => split_text_rec rest text
                end
  end.

End Recursive.

(** Modelled from the spec: the separators a splitter has when none are
    given: blank line, newline, space, empty string. *)
Definition separators : list Text :=
  map list_ascii_of_string [(nl ++ nl)%string; nl; " "; ""].

(** Modelled from the spec: [text_splitter.split_text(text)]. *)
Definition split_text (splitter : IngestData.TextSplitter) (text : string)
  : list string :=
  map string_of_list_ascii
      (split_text_rec (IngestData.chunk_size splitter)
                      (IngestData.chunk_overlap splitter)
                      separators (list_ascii_of_string text)).

(** Modelled from the spec: [text_splitter.split_documents(documents)]: the
    chunks of each document in turn, each one a document. *)
Definition split_documents (splitter : IngestData.TextSplitter)
  (documents : list Document) : list Document :=
  flat_map (fun d => map mkDocument (split_text splitter (page_content d)))
           documents.

End Splitter.



(** ** Concrete libraries, to run the code on *)

Module Demo.

(** A server host whose libraries never fail at construction: the persisted
    directory exists or not, the search returns [found] (cut to [k]
    documents), the model streams [answer], the translator answers
    [translation]. *)
Definition main_libs (dir_exists : bool) (found : Exception + list Document)
  (answer : Iterator AIMessageChunk) (translation : Exception + string)
  : Main.Libs :=
  {| Main.Chroma := unit;
     Main.ChatOllama := unit;
     Main.Embeddings := unit;
     Main.os_path_exists := fun _ => dir_exists;
     Main.SentenceTransformerEmbeddings := fun _ _ => inr tt;
     Main.Chroma_new := fun _ _ _ => inr tt;
     Main.ChatOllama_new := fun _ => inr tt;
     Main.Chroma_bool := fun _ => true;
     Main.asimilarity_search := fun _ _ k =>
       match found with
       | inr ds => inr (firstn k ds)
       | inl e => inl e
       end;
     Main.astream := fun _ _ => answer;
     Main.GoogleTranslator_translate := fun _ _ _ => translation |}.

Definition timeout : Exception := mkExc "TimeoutError" "timed out".

Definition two_docs : list Document :=
  [mkDocument "Fever is a rise in body temperature.";
   mkDocument "Rest and fluids help."].

Definition hello : Iterator AIMessageChunk :=
  Next (mkChunk "Drink") (Next (mkChunk " water.") Stop).

(** A PDF: it cannot be opened, or it has pages, each of which gives its
    text or fails. *)
Definition Pdf : Type := Exception + Iterator (Exception + string).

Fixpoint find_pdf (pdfs : list (string * Pdf)) (path : string) : Pdf :=
  match pdfs with
  | [] => inl (mkExc "FileNotFoundError"
                     ("[Errno 2] No such file or directory: '" ++ path ++ "'"))
  | (p, pdf) :: rest => if String.eqb p path then pdf else find_pdf rest path
  end.

(** A host for the extractor: whether the source directory exists, the
    names in it, and the PDFs by path. *)
Definition pdf_libs (dir_exists : bool) (names : list string)
  (pdfs : list (string * Pdf)) : PrepareData.Libs :=
  {| PrepareData.Page := Exception + string;
     PrepareData.os_path_exists := fun _ => dir_exists;
     PrepareData.os_listdir := fun _ => inr names;
     PrepareData.os_path_join := fun dir name => dir ++ "/" ++ name;
     PrepareData.PdfReader := find_pdf pdfs;
     PrepareData.extract_text := fun page => page;
     PrepareData.open_w := fun _ => inr tt |}.

Definition corrupt : Exception := mkExc "PdfReadError" "EOF marker not found".

(** A directory with a readable PDF, a note, and a PDF that breaks on its
    second page. *)
Definition clinic_names : list string := ["Flu.PDF"; "notes.txt"; "bad.pdf"].

Definition clinic_pdfs : list (string * Pdf) :=
  [("medical_data/Flu.PDF",
    inr (Next (inr "Influenza") (Next (inr "") (Next (inr "Rest.") Stop))));
   ("medical_data/bad.pdf",
    inr (Next (inr "Page one") (Next (inl corrupt) (Next (inr "lost") Stop))))].

(** A host for the ingestion, to run the script on short texts: the
    knowledge base loads or not, the splitter hands every document back as
    one chunk, the store appends. *)
Definition ingest_libs (knowledge_base : Exception + string)
  : IngestData.Libs :=
  {| IngestData.Embeddings := unit;
     IngestData.Store := list Document;
     IngestData.Db := list Document;
     IngestData.TextLoader_load := fun _ =>
       match knowledge_base with
       | inr text => inr [mkDocument text]
       | inl e => inl e
       end;
     IngestData.split_documents := fun _ documents => inr documents;
     IngestData.os_makedirs := fun _ => inr tt;
     IngestData.SentenceTransformerEmbeddings := fun _ _ => inr tt;
     IngestData.Chroma_from_documents := fun documents _ _ _ store =>
       ((store ++ documents)%list, inr (store ++ documents)%list);
     IngestData.collection_count := fun db => inr (List.length db) |}.

Definition missing : Exception :=
  mkExc "RuntimeError" "Error loading knowledge_base.txt".

End Demo.


(** * Properties *)

(** ** Runs of composed programs *)

Module Runs.

Section Laws.
Context {E S : Type}.

(** A run preceded by the events [t]. *)
Definition after {A} (t : list E) (r : Run E S A) : Run E S A :=
  mkRun (t ++ trace r)%list (final r) (outcome r).

Lemma after_nil {A} (r : Run E S A) : after [] r = r.
Proof. destruct r; reflexivity. Qed.

Lemma bind_emit {B} (e : E) (k : unit -> Prog E S B) s :
  bind (emit e) k s = after [e] (k tt s).
Proof. reflexivity. Qed.

Lemma bind_call {A B} (e : E) (result : Exception + A)
      (k : A -> Prog E S B) s :
  bind (call e result) k s
  = match result with
    | inl x => mkRun [e] s (inl x)
    | inr a => after [e] (k a s)
    end.
Proof. destruct result; reflexivity. Qed.

Lemma bind_lift {A B} (result : Exception + A) (k : A -> Prog E S B) s :
  bind (lift result) k s
  = match result with
    | inl x => mkRun [] s (inl x)
    | inr a => k a s
    end.
Proof.
  destruct result as [x | a]; [reflexivity |].
  change (bind (lift (inr a)) k s) with (after [] (k a s)).
  apply after_nil.
Qed.

Lemma bind_gets {A B} (f : S -> A) (k : A -> Prog E S B) s :
  bind (gets f) k s = k (f s) s.
Proof.
  change (bind (gets f) k s) with (after [] (k (f s) s)). apply after_nil.
Qed.

Lemma bind_modify {B} (f : S -> S) (k : unit -> Prog E S B) s :
  bind (modify f) k s = k tt (f s).
Proof.
  change (bind (modify f) k s) with (after [] (k tt (f s))). apply after_nil.
Qed.

Lemma bind_ret {A B} (a : A) (k : A -> Prog E S B) s :
  bind (ret a) k s = k a s.
Proof.
  change (bind (ret a) k s) with (after [] (k a s)). apply after_nil.
Qed.

Lemma bind_raise {A B} (x : Exception) (k : A -> Prog E S B) s :
  bind (raise x) k s = mkRun [] s (inl x).
Proof. reflexivity. Qed.

(** A step that returned, followed by the rest. *)
Lemma bind_run {A B} (m : Prog E S A) (k : A -> Prog E S B) s t s' a :
  m s = mkRun t s' (inr a) ->
  bind m k s = after t (k a s').
Proof.
  intros Hm. unfold bind. rewrite Hm. reflexivity.
Qed.

(** A step that raised. *)
Lemma bind_run_raised {A B} (m : Prog E S A) (k : A -> Prog E S B)
      s t s' x :
  m s = mkRun t s' (inl x) ->
  bind m k s = mkRun t s' (inl x).
Proof.
  intros Hm. unfold bind. rewrite Hm. reflexivity.
Qed.

(** The same, read off the outcome of the step. *)
Lemma bind_returned {A B} (m : Prog E S A) (k : A -> Prog E S B) s a :
  outcome (m s) = inr a ->
  bind m k s = after (trace (m s)) (k a (final (m s))).
Proof.
  intros Hm. unfold bind. rewrite Hm. reflexivity.
Qed.

Lemma try_except_run {A} (body : Prog E S A) handler s :
  try_except body handler s
  = match outcome (body s) with
    | inl x => after (trace (body s)) (handler x (final (body s)))
    | inr _ => body s
    end.
Proof. reflexivity. Qed.

(** A loop whose body only emits events: it emits them for every item, in
    order, and returns. *)
Lemma for_each_emits {A} (xs : list A) (events : A -> list E)
      (body : A -> Prog E S unit) s :
  (forall x s', body x s' = mkRun (events x) s' (inr tt)) ->
  for_each xs body s = mkRun (flat_map events xs) s (inr tt).
Proof.
  intros Hbody. induction xs as [| x rest IH]; cbn [for_each flat_map].
  - reflexivity.
  - rewrite (bind_run _ _ _ _ _ _ (Hbody x s)), IH. reflexivity.
Qed.

(** The same over an iterator, which may end by raising. *)
Lemma for_iter_emits {A} (it : Iterator A) (events : A -> list E)
      (body : A -> Prog E S unit) s :
  (forall x s', body x s' = mkRun (events x) s' (inr tt)) ->
  for_iter it body s =
  mkRun (flat_map events (items it)) s
        (match ending it with None => inr tt | Some e => inl e end).
Proof.
  intros Hbody.
  induction it as [| e | a rest IH]; cbn [for_iter flat_map items ending].
  - reflexivity.
  - reflexivity.
  - rewrite (bind_run _ _ _ _ _ _ (Hbody a s)), IH. reflexivity.
Qed.

End Laws.

(** One step of a run: the leading statement is executed and its events are
    moved in front of the rest. *)
Ltac step :=
  first [ rewrite bind_emit | rewrite bind_gets | rewrite bind_modify
        | rewrite bind_ret | rewrite bind_raise | rewrite bind_call
        | rewrite bind_lift ];
  cbv beta.

Ltac steps := repeat step.

End Runs.


(** ** The query server *)

Module MainProofs.
Import Main Runs.

Lemma yields_app (t u : list Event) :
  yields (t ++ u) = (yields t ++ yields u)%list.
Proof.
  induction t as [| e t IH]; cbn; [reflexivity |].
  destruct e; cbn; rewrite ?IH; reflexivity.
Qed.

Lemma yields_typing (cs : list string) :
  yields (flat_map (fun c => [Yield (sse c); Sleep]) cs) = map sse cs.
Proof.
  induction cs as [| c cs IH]; cbn [flat_map yields app map];
    [reflexivity |].
  rewrite IH. reflexivity.
Qed.

Lemma yields_chunks (cs : list AIMessageChunk) :
  yields (flat_map (fun c => [Yield (sse (content c))]) cs)
  = map (fun c => sse (content c)) cs.
Proof.
  induction cs as [| c cs IH]; cbn [flat_map yields app map];
    [reflexivity |].
  rewrite IH. reflexivity.
Qed.

Lemma length_chars (s : string) :
  List.length (chars s) = String.length s.
Proof.
  induction s as [| c s IH]; cbn; [reflexivity |].
  rewrite IH. reflexivity.
Qed.

(** The template of [startup_event], formatted: the context and the
    question stand where the two fields were. *)
Lemma format_startup_template (vars : list string) (context question : string) :
  format (mkPromptTemplate startup_template vars)
         [("context", context); ("question", question)]
  = inr (template_head ++ context ++ template_middle ++ question
         ++ template_tail).
Proof.
  vm_compute. reflexivity.
Qed.

(** A template that names a variable the call does not pass raises. *)
Example format_missing_variable :
  format (mkPromptTemplate "Q: {question} ({lang})" ["question"; "lang"])
         [("context", "c"); ("question", "q")]
  = inl (KeyError "lang").
Proof. reflexivity. Qed.

(** Braces in the inserted values are kept as they are. *)
Example format_keeps_braces :
  format (mkPromptTemplate "{context}|{question}" ["context"; "question"])
         [("context", "{question}"); ("question", "a}b")]
  = inr "{question}|a}b".
Proof. reflexivity. Qed.

Section Server.
Context {L : Libs}.

(** The disclaimer loop: one event and one pause per character. *)
Lemma typing_loop (g : Globals) :
  for_each (chars no_context_message)
           (fun char => bind (yield (sse char)) (fun _ => emit Sleep)) g
  = mkRun (flat_map (fun c => [Yield (sse c); Sleep])
                    (chars no_context_message)) g (inr tt).
Proof.
  apply for_each_emits. intros x s'. reflexivity.
Qed.

(** The relay loop: one event per chunk, until the stream ends. *)
Lemma relay_loop (answer : Iterator AIMessageChunk) (g : Globals) :
  for_iter answer (fun chunk => yield (sse (content chunk))) g
  = mkRun (flat_map (fun c => [Yield (sse (content c))]) (items answer)) g
          (match ending answer with None => inr tt | Some e => inl e end).
Proof.
  apply for_iter_emits. intros x s'. reflexivity.
Qed.

(** The handler of the chat stream returns. *)
Lemma chat_except_run (e : Exception) (g : Globals) :
  chat_except e g
  = mkRun [Print ("Error during streaming: " ++ exc_str e);
           Yield (sse ("An error occurred: " ++ exc_str e))] g (inr tt).
Proof. reflexivity. Qed.

Lemma guard_failed (query : string) (g : Globals) :
  vector_store_bool (vector_store g) = false ->
  stream_chat_response query g = mkRun [Yield (sse error_message)] g (inr tt).
Proof.
  intros Hguard. unfold stream_chat_response. rewrite bind_gets, Hguard.
  reflexivity.
Qed.

Lemma guard_passed (query : string) (g : Globals) :
  vector_store_bool (vector_store g) = true ->
  stream_chat_response query g = try_except (chat_try query) chat_except g.
Proof.
  intros Hguard. unfold stream_chat_response. rewrite bind_gets, Hguard.
  reflexivity.
Qed.

(** No exception leaves the generator. *)
Lemma stream_chat_response_returns (query : string) (g : Globals) :
  outcome (stream_chat_response query g) = inr tt.
Proof.
  destruct (vector_store_bool (vector_store g)) eqn:Hguard.
  - rewrite guard_passed by exact Hguard. rewrite try_except_run.
    destruct (outcome (chat_try query g)) as [e | []] eqn:Hb.
    + reflexivity.
    + exact Hb.
  - rewrite guard_failed by exact Hguard. reflexivity.
Qed.

Lemma search_run (query : string) (k : nat) (g : Globals) (vs : Chroma) :
  vector_store g = Some vs ->
  search query k g
  = mkRun [SimilaritySearch query k] g (asimilarity_search vs query k).
Proof.
  intros Hset. unfold search. rewrite bind_gets, Hset. reflexivity.
Qed.


(** The [try] block when the search finds documents, the template is the
    one of [startup_event] and the model client is set. *)
Lemma chat_try_answer (query : string) (g : Globals) (vs : Chroma)
      (model : ChatOllama) (vars : list string) (d : Document)
      (ds : list Document) :
  vector_store g = Some vs ->
  prompt_template g = Some (mkPromptTemplate startup_template vars) ->
  llm g = Some model ->
  asimilarity_search vs query 5 = inr (d :: ds) ->
  let prompt :=
    template_head ++ join (nl ++ nl) (map page_content (d :: ds))
    ++ template_middle ++ query ++ template_tail in
  let answer := astream model prompt in
  chat_try query g
  = mkRun ([Print ("Searching for context for: '" ++ query ++ "'");
            SimilaritySearch query 5;
            Print ("Found " ++ str_of_nat (List.length (d :: ds))
                   ++ " relevant documents.");
            Astream prompt]
           ++ flat_map (fun c => [Yield (sse (content c))]) (items answer))%list
          g (match ending answer with None => inr tt | Some e => inl e end).
Proof.
  intros Hset Hpt Hllm Hfound prompt answer. unfold chat_try, print. step.
  rewrite (bind_run _ _ g [SimilaritySearch query 5] g (d :: ds))
    by (rewrite (search_run _ _ _ _ Hset), Hfound; reflexivity).
  cbn [list_bool negb]. step.
  rewrite (bind_run _ _ g [] g prompt).
  2:{ unfold format_prompt. rewrite bind_gets, Hpt.
      unfold lift. rewrite format_startup_template. reflexivity. }
  rewrite (bind_run _ _ g [Astream prompt] g answer).
  2:{ unfold llm_astream. rewrite bind_gets, Hllm. step. reflexivity. }
  rewrite relay_loop. reflexivity.
Qed.

(** A startup hook that returns either found no persisted directory and
    left the singletons as they were, or built all three of them. *)
Lemma startup_cases :
  let r := startup_event module_globals in
  returns r = true ->
  (os_path_exists CHROMA_PERSIST_DIR = false /\ final r = module_globals)
  \/ (os_path_exists CHROMA_PERSIST_DIR = true /\
      exists emb vs model,
        SentenceTransformerEmbeddings EMBEDDING_MODEL_NAME MODEL_CACHE_DIR
        = inr emb /\
        Chroma_new CHROMA_PERSIST_DIR emb COLLECTION_NAME = inr vs /\
        ChatOllama_new LLM_MODEL_NAME = inr model /\
        final r =
        mkGlobals (Some vs) (Some model)
                  (Some (mkPromptTemplate startup_template
                                          ["context"; "question"]))).
Proof.
  cbn zeta. unfold startup_event, print. step.
  destruct (os_path_exists CHROMA_PERSIST_DIR); cbn [negb].
  - step.
    destruct (SentenceTransformerEmbeddings _ _) as [e | emb] eqn:He;
      [discriminate |].
    step. destruct (Chroma_new _ emb _) as [e | vs] eqn:Hv; [discriminate |].
    steps. destruct (ChatOllama_new _) as [e | model] eqn:Hm;
      [discriminate |].
    steps. intros _. right. split; [reflexivity |].
    exists emb, vs, model. repeat split; assumption.
  - intros _. left. split; reflexivity.
Qed.

(** C1.  When the chat stream generator runs while the vector store
    singleton is unset, it yields exactly one event, whose body is the
    not-initialized message, and terminates; it performs no similarity
    search and does not call the language model. *)
Theorem chat_before_startup (query : string) (g : Globals) :
  vector_store g = None ->
  let r := stream_chat_response query g in
  trace r = [Yield (sse error_message)] /\
  yields (trace r)
  = ["data: Vector store is not initialized. Please check server startup logs."
     ++ nl ++ nl] /\
  outcome r = inr tt /\
  existsb is_search (trace r) = false /\
  existsb is_llm_call (trace r) = false.
Proof.
  intros Hunset r. subst r.
  rewrite guard_failed by (rewrite Hunset; reflexivity).
  repeat split.
Qed.




(** C2.  When the vector store passes the guard and the retrieval, prompt
    and generation sequence raises an exception, the generator catches it:
    after what the sequence had already emitted it yields exactly one more
    event, the last one, which carries the error text, and then it
    terminates normally.  No exception leaves the generator. *)
Theorem chat_exception_reported (query : string) (g : Globals)
        (e : Exception) :
  vector_store_bool (vector_store g) = true ->
  outcome (chat_try query g) = inl e ->
  let r := stream_chat_response query g in
  trace r
  = (trace (chat_try query g)
     ++ [Print ("Error during streaming: " ++ exc_str e);
         Yield (sse ("An error occurred: " ++ exc_str e))])%list /\
  yields (trace r)
  = (yields (trace (chat_try query g))
     ++ [sse ("An error occurred: " ++ exc_str e)])%list /\
  outcome r = inr tt /\
  (forall query' g', outcome (stream_chat_response query' g') = inr tt).
Proof.
  intros Hguard Hraise r.
  assert (Htrace : trace r
    = (trace (chat_try query g)
       ++ [Print ("Error during streaming: " ++ exc_str e);
           Yield (sse ("An error occurred: " ++ exc_str e))])%list).
  { subst r. rewrite guard_passed by exact Hguard.
    rewrite try_except_run, Hraise. reflexivity. }
  split; [exact Htrace |].
  split; [rewrite Htrace, yields_app; reflexivity |].
  split; intros; apply stream_chat_response_returns.
Qed.

Lemma no_search_in_chunks (cs : list AIMessageChunk) :
  filter is_search (flat_map (fun c => [Yield (sse (content c))]) cs) = [].
Proof.
  induction cs as [| c cs IH]; [reflexivity | exact IH].
Qed.

Lemma no_llm_call_in_chunks (cs : list AIMessageChunk) :
  filter is_llm_call (flat_map (fun c => [Yield (sse (content c))]) cs) = [].
Proof.
  induction cs as [| c cs IH]; [reflexivity | exact IH].
Qed.

Lemma join_concat (sep : string) (xs : list string) :
  join sep xs = String.concat sep xs.
Proof.
  induction xs as [| x xs IH]; [reflexivity |].
  destruct xs as [| y xs]; [reflexivity |].
  cbn [join String.concat] in *. rewrite IH. reflexivity.
Qed.

(** C4.  When the vector store is set and its handle tests true, the prompt
    template is the one built at startup, the model client is set, and the
    search returns at least one document, the generator asks for the 5
    nearest chunks (once), puts the page contents of the retrieved
    documents, separated by two newlines, and the query in the two fields
    of the fixed template, calls the model once with that prompt, and
    yields one event per increment of the model's stream, in order: [data: ]
    followed by the increment and an empty line.  When the stream completes
    these are all the events; when it raises they are followed by the one
    error event. *)
Theorem chat_relays_answer (query : string) (g : Globals) (vs : Chroma)
        (model : ChatOllama) (d : Document) (ds : list Document) :
  vector_store g = Some vs ->
  Chroma_bool vs = true ->
  prompt_template g
  = Some (mkPromptTemplate startup_template ["context"; "question"]) ->
  llm g = Some model ->
  asimilarity_search vs query 5 = inr (d :: ds) ->
  let context_str :=
    String.concat (nl ++ nl) (map page_content (d :: ds)) in
  let prompt :=
    template_head ++ context_str ++ template_middle ++ query
    ++ template_tail in
  let answer := astream model prompt in
  let r := stream_chat_response query g in
  filter is_search (trace r) = [SimilaritySearch query 5] /\
  filter is_llm_call (trace r) = [Astream prompt] /\
  (ending answer = None ->
   yields (trace r)
   = map (fun c => "data: " ++ content c ++ nl ++ nl) (items answer)) /\
  (forall e, ending answer = Some e ->
   yields (trace r)
   = List.app
       (map (fun c => "data: " ++ content c ++ nl ++ nl) (items answer))
       ["data: An error occurred: " ++ exc_str e ++ nl ++ nl]) /\
  outcome r = inr tt.
Proof.
  intros Hset Htrue Hpt Hllm Hfound context_str prompt answer r.
  assert (Hrun : trace r
    = ([Print ("Searching for context for: '" ++ query ++ "'");
        SimilaritySearch query 5;
        Print ("Found " ++ str_of_nat (List.length (d :: ds))
               ++ " relevant documents.");
        Astream prompt]
       ++ flat_map (fun c => [Yield (sse (content c))]) (items answer)
       ++ match ending answer with
          | None => []
          | Some e => [Print ("Error during streaming: " ++ exc_str e);
                       Yield (sse ("An error occurred: " ++ exc_str e))]
          end)%list).
  { subst r. rewrite guard_passed by (rewrite Hset; exact Htrue).
    rewrite try_except_run.
    rewrite (chat_try_answer query g vs model _ d ds Hset Hpt Hllm Hfound).
    rewrite join_concat.
    fold context_str. fold prompt. fold answer.
    cbn [trace final outcome].
    destruct (ending answer) as [e |].
    - rewrite chat_except_run. unfold after. cbn [trace].
      rewrite <- app_assoc. reflexivity.
    - cbn [trace]. rewrite app_nil_r. reflexivity. }
  rewrite Hrun. repeat split.
  - cbn [filter is_search app]. rewrite filter_app, no_search_in_chunks.
    destruct (ending answer); reflexivity.
  - cbn [filter is_llm_call app]. rewrite filter_app, no_llm_call_in_chunks.
    destruct (ending answer); reflexivity.
  - intros Hend. rewrite Hend, app_nil_r.
    cbn [yields app]. apply yields_chunks.
  - intros e Hend. rewrite Hend. cbn [yields app].
    rewrite yields_app, yields_chunks. reflexivity.
  - apply stream_chat_response_returns.
Qed.

(** A startup that completed with the directory present leaves a state of
    that kind. *)
Lemma startup_ready_state :
  returns (startup_event module_globals) = true ->
  os_path_exists CHROMA_PERSIST_DIR = true ->
  exists vs model,
    vector_store (final (startup_event module_globals)) = Some vs /\
    prompt_template (final (startup_event module_globals))
    = Some (mkPromptTemplate startup_template ["context"; "question"]) /\
    llm (final (startup_event module_globals)) = Some model.
Proof.
  intros Hret Hdir.
  destruct startup_cases
    as [[Hoff _] | [_ (emb & vs & model & _ & _ & _ & Hg)]];
    [exact Hret | rewrite Hdir in Hoff; discriminate |].
  exists vs, model. rewrite Hg. repeat split.
Qed.

(** C10.  After a startup hook that has run to its end from the module's
    initial state, the vector store is set exactly when the model client
    and the prompt template are set; when the persisted directory is
    missing all three are unset; and whenever the vector store passes the
    guard of the chat stream generator, the prompt template and the model
    client are set. *)
Theorem startup_all_or_nothing :
  let r := startup_event module_globals in
  returns r = true ->
  let g := final r in
  (vector_store g <> None <-> llm g <> None /\ prompt_template g <> None) /\
  (os_path_exists CHROMA_PERSIST_DIR = false ->
   vector_store g = None /\ llm g = None /\ prompt_template g = None) /\
  (vector_store_bool (vector_store g) = true ->
   exists pt model, prompt_template g = Some pt /\ llm g = Some model).
Proof.
  intros r Hret g.
  destruct startup_cases
    as [[Hdir Hnone] | [Hdir (emb & vs & model & _ & _ & _ & Hg)]];
    [exact Hret | |].
  - fold r in Hnone. subst g. rewrite Hnone.
    cbn [module_globals vector_store llm prompt_template vector_store_bool].
    split; [| split].
    + split.
      * intros H. exfalso. apply H. reflexivity.
      * intros [H _]. exfalso. apply H. reflexivity.
    + intros _. repeat split.
    + discriminate.
  - fold r in Hg. subst g. rewrite Hg.
    cbn [vector_store llm prompt_template].
    split; [| split].
    + split; intros _; [split |]; discriminate.
    + intros Hoff. rewrite Hdir in Hoff. discriminate.
    + intros _. eexists _, model. split; reflexivity.
Qed.

(** C8.  For every translation request the handler returns, and the
    response has status 200 and a JSON body: [translated_text] with the
    translation when the translation call succeeds, [error] with the
    failure message when it raises.  A request body without [source_lang]
    is validated to a request whose source language is ["auto"]. *)
Theorem translate_always_200 (request : TranslationRequest) (g : Globals) :
  let call_result :=
    GoogleTranslator_translate (source_lang request) (target_lang request)
                               (text request) in
  let r := translate_text request g in
  outcome r
  = inr (match call_result with
         | inr result => [("translated_text", result)]
         | inl e => [("error", exc_str e)]
         end) /\
  respond r
  = mkResponse 200
      (JsonBody (match call_result with
                 | inr result => [("translated_text", result)]
                 | inl e => [("error", exc_str e)]
                 end)) /\
  status_code (respond r) = 200 /\
  (forall t tl,
     TranslationRequest_validate [("text", t); ("target_lang", tl)]
     = Some (mkTranslationRequest t tl "auto")) /\
  (forall body' request',
     json_get body' "source_lang" = None ->
     TranslationRequest_validate body' = Some request' ->
     source_lang request' = "auto").
Proof.
  intros call_result r.
  assert (Hout : outcome r
    = inr (match call_result with
           | inr result => [("translated_text", result)]
           | inl e => [("error", exc_str e)]
           end)).
  { subst r. unfold translate_text. rewrite try_except_run, bind_call.
    fold call_result. destruct call_result; reflexivity. }
  split; [exact Hout |].
  assert (Hresp : respond r
    = mkResponse 200
        (JsonBody (match call_result with
                   | inr result => [("translated_text", result)]
                   | inl e => [("error", exc_str e)]
                   end))).
  { unfold respond. rewrite Hout. reflexivity. }
  split; [exact Hresp |].
  split; [rewrite Hresp; reflexivity |].
  split; [reflexivity |].
  intros body' request' Hmissing Hvalid.
  unfold TranslationRequest_validate in Hvalid. rewrite Hmissing in Hvalid.
  destruct (json_get body' "text"); [| discriminate].
  destruct (json_get body' "target_lang"); [| discriminate].
  injection Hvalid as <-. reflexivity.
Qed.

End Server.

(** *** The theorems at concrete hosts *)

(** A host whose persisted directory is missing. *)
Definition cold : Libs := Demo.main_libs false (inr []) Stop (inr "").


(** A host whose search times out. *)
Definition flaky : Libs :=
  Demo.main_libs true (inl Demo.timeout) Stop (inl Demo.timeout).

(** A host that finds two documents and answers in two chunks. *)
Definition warm : Libs :=
  Demo.main_libs true (inr Demo.two_docs) Demo.hello (inr "Hola").

(** The singletons after startup on a host. *)
Definition ready (L : Libs) : Globals :=
  final (startup_event (L := L) module_globals).

Lemma chat_before_startup_witness :
  vector_store (ready cold) = None /\
  trace (stream_chat_response (L := cold) "What is a fever?" (ready cold))
  = [Yield (sse error_message)].
Proof.
  split; [reflexivity |].
  apply (chat_before_startup (L := cold) "What is a fever?" (ready cold)).
  reflexivity.
Defined.


Lemma chat_exception_reported_witness :
  vector_store_bool (L := flaky) (vector_store (ready flaky)) = true /\
  outcome (chat_try (L := flaky) "What is a fever?" (ready flaky))
  = inl Demo.timeout /\
  yields (trace (stream_chat_response (L := flaky) "What is a fever?"
                                      (ready flaky)))
  = ["data: An error occurred: timed out" ++ nl ++ nl].
Proof.
  split; [reflexivity |]. split; [reflexivity |].
  apply (chat_exception_reported (L := flaky) "What is a fever?"
                                 (ready flaky) Demo.timeout);
    reflexivity.
Defined.

Lemma chat_relays_answer_witness :
  vector_store (ready warm) = Some tt /\
  Chroma_bool (Libs := warm) tt = true /\
  prompt_template (ready warm)
  = Some (mkPromptTemplate startup_template ["context"; "question"]) /\
  llm (ready warm) = Some tt /\
  asimilarity_search (Libs := warm) tt "What is a fever?" 5
  = inr [mkDocument "Fever is a rise in body temperature.";
         mkDocument "Rest and fluids help."] /\
  filter is_llm_call
         (trace (stream_chat_response (L := warm) "What is a fever?"
                                      (ready warm)))
  = [Astream
       (template_head ++ "Fever is a rise in body temperature." ++ nl ++ nl
        ++ "Rest and fluids help." ++ template_middle ++ "What is a fever?"
        ++ template_tail)] /\
  yields (trace (stream_chat_response (L := warm) "What is a fever?"
                                      (ready warm)))
  = ["data: Drink" ++ nl ++ nl; "data:  water." ++ nl ++ nl].
Proof.
  split; [reflexivity |]. split; [reflexivity |]. split; [reflexivity |].
  split; [reflexivity |]. split; [reflexivity |].
  destruct (chat_relays_answer (L := warm) "What is a fever?" (ready warm)
              tt tt (mkDocument "Fever is a rise in body temperature.")
              [mkDocument "Rest and fluids help."]
              eq_refl eq_refl eq_refl eq_refl eq_refl)
    as (_ & Hcall & Hyields & _).
  split; [exact Hcall | exact (Hyields eq_refl)].
Defined.

Lemma startup_all_or_nothing_witness :
  (returns (startup_event (L := cold) module_globals) = true /\
   os_path_exists (Libs := cold) CHROMA_PERSIST_DIR = false /\
   vector_store (ready cold) = None /\
   llm (ready cold) = None /\
   prompt_template (ready cold) = None) /\
  (returns (startup_event (L := warm) module_globals) = true /\
   vector_store_bool (L := warm) (vector_store (ready warm)) = true /\
   exists pt model,
     prompt_template (ready warm) = Some pt /\ llm (ready warm) = Some model).
Proof.
  split.
  - split; [reflexivity |]. split; [reflexivity |].
    apply (startup_all_or_nothing (L := cold)); reflexivity.
  - split; [reflexivity |]. split; [reflexivity |].
    apply (startup_all_or_nothing (L := warm)); reflexivity.
Defined.

Lemma translate_always_200_witness :
  json_get [("text", "fever"); ("target_lang", "es")] "source_lang" = None /\
  TranslationRequest_validate [("text", "fever"); ("target_lang", "es")]
  = Some (mkTranslationRequest "fever" "es" "auto") /\
  source_lang (mkTranslationRequest "fever" "es" "auto") = "auto" /\
  status_code
    (respond (translate_text (L := flaky)
                (mkTranslationRequest "fever" "xx" "auto") (ready flaky)))
  = 200.
Proof.
  split; [reflexivity |]. split; [reflexivity |].
  destruct (translate_always_200 (L := flaky)
              (mkTranslationRequest "fever" "xx" "auto") (ready flaky))
    as (_ & _ & Hstatus & _ & Hdefault).
  split; [| exact Hstatus].
  apply (Hdefault [("text", "fever"); ("target_lang", "es")]); reflexivity.
Defined.

End MainProofs.


(** ** The PDF extractor *)

Module PrepareDataProofs.
Import PrepareData Runs.

Lemma append_empty_r (s : string) : s ++ "" = s.
Proof.
  induction s as [| c s IH]; cbn; [reflexivity |]. rewrite IH. reflexivity.
Qed.

Lemma append_assoc (s t u : string) : (s ++ t) ++ u = s ++ (t ++ u).
Proof.
  induction s as [| c s IH]; cbn; [reflexivity |]. rewrite IH. reflexivity.
Qed.

(** Texts each followed by a blank line. *)
Fixpoint terminated (texts : list string) : string :=
  match texts with
  | [] => ""
  | t :: rest => (t ++ nl ++ nl) ++ terminated rest
  end.

Lemma terminated_app (a b : list string) :
  terminated (a ++ b) = terminated a ++ terminated b.
Proof.
  induction a as [| t a IH]; cbn [terminated app]; [reflexivity |].
  rewrite IH. symmetry. apply append_assoc.
Qed.

Lemma terminated_join (t : string) (rest : list string) :
  terminated (t :: rest) = join (nl ++ nl) (t :: rest) ++ nl ++ nl.
Proof.
  revert t. induction rest as [| u rest IH]; intros t.
  - cbn [terminated join]. apply append_empty_r.
  - change (terminated (t :: u :: rest))
      with ((t ++ nl ++ nl) ++ terminated (u :: rest)).
    change (join (nl ++ nl) (t :: u :: rest))
      with (t ++ (nl ++ nl) ++ join (nl ++ nl) (u :: rest)).
    rewrite IH, !append_assoc. reflexivity.
Qed.

Lemma terminated_joined (texts : list string) :
  terminated texts = joined texts.
Proof.
  destruct texts as [| t rest]; [reflexivity | apply terminated_join].
Qed.

(** The state after [x] was appended to [all_text]. *)
Definition appended (x : string) (s : State) : State :=
  mkState (files s) (all_text s ++ x).

Lemma appended_empty (s : State) : appended "" s = s.
Proof.
  destruct s as [fs txt]. unfold appended; cbn.
  rewrite append_empty_r. reflexivity.
Qed.

Lemma appended_appended (x y : string) (s : State) :
  appended y (appended x s) = appended (x ++ y) s.
Proof.
  unfold appended; cbn. rewrite append_assoc. reflexivity.
Qed.

Lemma no_write_in_reports {A} (f : A -> string) (g : A -> string)
      (xs : list A) :
  existsb is_write (flat_map (fun x => [OpenPdf (f x); Print (g x)]) xs)
  = false.
Proof.
  induction xs as [| x xs IH]; [reflexivity | exact IH].
Qed.

Lemma opened_reports {A} (f : A -> string) (g : A -> string) (xs : list A) :
  opened (flat_map (fun x => [OpenPdf (f x); Print (g x)]) xs) = map f xs.
Proof.
  induction xs as [| x xs IH]; [reflexivity |].
  cbn [flat_map app opened map]. rewrite IH. reflexivity.
Qed.

Lemma printed_reports {A} (f : A -> string) (g : A -> string) (xs : list A) :
  printed (flat_map (fun x => [OpenPdf (f x); Print (g x)]) xs) = map g xs.
Proof.
  induction xs as [| x xs IH]; [reflexivity |].
  cbn [flat_map app printed map]. rewrite IH. reflexivity.
Qed.

(** The extension test ignores case and wants the dot. *)
Example is_pdf_examples :
  map is_pdf ["a.pdf"; "Flu.PDF"; "x.Pdf"; ".pdf"; "pdf"; "a.pdfx"; "notes.txt"]
  = [true; true; true; true; false; false; false].
Proof. reflexivity. Qed.

Section Extractor.
Context {L : Libs}.

Lemma extract_page_run (page : Page) (s : State) :
  extract_page page s
  = match extract_text page with
    | inl e => mkRun [] s (inl e)
    | inr text =>
        mkRun [] (appended (terminated (if str_bool text then [text] else []))
                           s) (inr tt)
    end.
Proof.
  unfold extract_page. rewrite bind_lift.
  destruct (extract_text page) as [e | text]; [reflexivity |].
  destruct text as [| c text]; cbn [str_bool terminated].
  - rewrite appended_empty. reflexivity.
  - rewrite append_empty_r. reflexivity.
Qed.

(** The loop over the pages appends the texts of the pages read before a
    failure, and raises what the failing page raised. *)
Lemma pages_run (pages : Iterator Page) (s : State) :
  for_iter pages extract_page s
  = mkRun [] (appended (terminated (page_texts pages)) s)
          (match pages_failure pages with
           | None => inr tt
           | Some e => inl e
           end).
Proof.
  revert s.
  induction pages as [| e | page rest IH]; intros s;
    cbn [for_iter page_texts pages_failure terminated].
  - rewrite appended_empty. reflexivity.
  - rewrite appended_empty. reflexivity.
  - destruct (extract_text page) as [e | text] eqn:Htext.
    + rewrite (bind_run_raised _ _ s [] s e)
        by (rewrite extract_page_run, Htext; reflexivity).
      cbn [terminated]. rewrite appended_empty. reflexivity.
    + rewrite (bind_run _ _ s []
                 (appended (terminated (if str_bool text then [text] else []))
                           s) tt)
        by (rewrite extract_page_run, Htext; reflexivity).
      rewrite IH, after_nil, appended_appended, terminated_app.
      reflexivity.
Qed.

(** One file: it is opened, its pages are appended up to a failure, and
    one line reports the success or the failure; nothing is raised. *)
Lemma extract_file_run (pdf_dir filename : string) (s : State) :
  let path := os_path_join pdf_dir filename in
  extract_file pdf_dir filename s
  = mkRun [OpenPdf path; Print (file_report filename path)]
          (appended (terminated (file_texts path)) s) (inr tt).
Proof.
  intros path. unfold extract_file, file_report, file_texts, file_failure.
  fold path. rewrite try_except_run, bind_call.
  destruct (PdfReader path) as [e | pages].
  - cbn [outcome trace final terminated]. rewrite appended_empty.
    reflexivity.
  - destruct (pages_failure pages) as [e |] eqn:Hfail.
    + rewrite (bind_run_raised _ _ s []
                 (appended (terminated (page_texts pages)) s) e)
        by (rewrite pages_run, Hfail; reflexivity).
      reflexivity.
    + rewrite (bind_run _ _ s []
                 (appended (terminated (page_texts pages)) s) tt)
        by (rewrite pages_run, Hfail; reflexivity).
      reflexivity.
Qed.

(** The loop over the files. *)
Lemma extract_files_run (pdf_dir : string) (pdf_files : list string)
      (s : State) :
  for_each pdf_files (extract_file pdf_dir) s
  = mkRun (flat_map
             (fun f => [OpenPdf (os_path_join pdf_dir f);
                        Print (file_report f (os_path_join pdf_dir f))])
             pdf_files)
          (appended
             (terminated
                (flat_map file_texts (map (os_path_join pdf_dir) pdf_files)))
             s)
          (inr tt).
Proof.
  revert s. induction pdf_files as [| f rest IH]; intros s;
    cbn [for_each flat_map map terminated].
  - rewrite appended_empty. reflexivity.
  - rewrite (bind_run _ _ _ _ _ _ (extract_file_run pdf_dir f s)).
    rewrite IH. unfold after. cbn [trace final outcome].
    rewrite appended_appended, terminated_app. reflexivity.
Qed.

(** The run of the extractor, by cases on what it finds. *)
Lemma extract_missing_dir (pdf_dir : string) (s : State) :
  os_path_exists pdf_dir = false ->
  extract_text_from_pdfs pdf_dir s
  = mkRun [Print ("Scanning for PDF files in '" ++ pdf_dir ++ "'...");
           Print ("Error: Directory '" ++ pdf_dir
                  ++ "' not found. Please create it and add your medical PDFs.")]
          (set_all_text "" s) (inr "").
Proof.
  intros Hdir. unfold extract_text_from_pdfs, print. steps.
  rewrite Hdir. cbn [negb]. steps. reflexivity.
Qed.

Lemma extract_listdir_raises (pdf_dir : string) (s : State) (e : Exception) :
  os_path_exists pdf_dir = true ->
  os_listdir pdf_dir = inl e ->
  extract_text_from_pdfs pdf_dir s
  = mkRun [Print ("Scanning for PDF files in '" ++ pdf_dir ++ "'...")]
          (set_all_text "" s) (inl e).
Proof.
  intros Hdir Hlist. unfold extract_text_from_pdfs, print. steps.
  rewrite Hdir. cbn [negb]. rewrite bind_lift, Hlist. reflexivity.
Qed.

Lemma extract_no_pdfs (pdf_dir : string) (s : State) (names : list string) :
  os_path_exists pdf_dir = true ->
  os_listdir pdf_dir = inr names ->
  filter is_pdf names = [] ->
  extract_text_from_pdfs pdf_dir s
  = mkRun [Print ("Scanning for PDF files in '" ++ pdf_dir ++ "'...");
           Print ("No PDF files found in '" ++ pdf_dir ++ "'.")]
          (set_all_text "" s) (inr "").
Proof.
  intros Hdir Hlist Hnone. unfold extract_text_from_pdfs, print. steps.
  rewrite Hdir. cbn [negb]. rewrite bind_lift, Hlist. cbv beta zeta.
  rewrite Hnone. cbn [list_bool negb]. steps. reflexivity.
Qed.

Lemma extract_pdfs (pdf_dir : string) (s : State) (names : list string) :
  os_path_exists pdf_dir = true ->
  os_listdir pdf_dir = inr names ->
  filter is_pdf names <> [] ->
  let pdf_files := filter is_pdf names in
  let texts := flat_map file_texts (map (os_path_join pdf_dir) pdf_files) in
  extract_text_from_pdfs pdf_dir s
  = mkRun ([Print ("Scanning for PDF files in '" ++ pdf_dir ++ "'...");
            Print ("Found " ++ str_of_nat (List.length pdf_files)
                   ++ " PDF(s). Extracting text...")]
           ++ flat_map
                (fun f => [OpenPdf (os_path_join pdf_dir f);
                           Print (file_report f (os_path_join pdf_dir f))])
                pdf_files)%list
          (mkState (files s) (terminated texts))
          (inr (terminated texts)).
Proof.
  intros Hdir Hlist Hsome pdf_files texts.
  unfold extract_text_from_pdfs, print. steps.
  rewrite Hdir. cbn [negb]. rewrite bind_lift, Hlist. cbv beta zeta.
  fold pdf_files. fold pdf_files in Hsome.
  destruct pdf_files as [| f rest] eqn:Hfiles; [contradiction |].
  cbn [list_bool negb]. step.
  rewrite (bind_run _ _ _ _ _ _ (extract_files_run pdf_dir (f :: rest) _)).
  unfold after, gets. cbn [trace final outcome].
  rewrite app_nil_r. reflexivity.
Qed.

(** The extractor itself writes no file. *)
Lemma extract_harmless (pdf_dir : string) (s : State) :
  files (final (extract_text_from_pdfs pdf_dir s)) = files s /\
  existsb is_write (trace (extract_text_from_pdfs pdf_dir s)) = false.
Proof.
  destruct (os_path_exists pdf_dir) eqn:Hdir.
  - destruct (os_listdir pdf_dir) as [e | names] eqn:Hlist.
    + rewrite (extract_listdir_raises _ _ _ Hdir Hlist). split; reflexivity.
    + destruct (filter is_pdf names) as [| f rest] eqn:Hfiles.
      * rewrite (extract_no_pdfs _ _ _ Hdir Hlist Hfiles).
        split; reflexivity.
      * rewrite (extract_pdfs _ _ _ Hdir Hlist)
          by (rewrite Hfiles; discriminate).
        split; [reflexivity |].
        cbn [trace app existsb is_write orb].
        apply no_write_in_reports.
  - rewrite (extract_missing_dir _ _ Hdir). split; reflexivity.
Qed.

Lemma printed_app (t u : list Event) :
  printed (t ++ u) = (printed t ++ printed u)%list.
Proof.
  induction t as [| e t IH]; cbn [app printed]; [reflexivity |].
  destruct e; cbn [app]; rewrite IH; reflexivity.
Qed.

(** [main] when the extractor returns the empty string. *)
Lemma main_no_text (s : State) :
  outcome (extract_text_from_pdfs PDF_SOURCE_DIR s) = inr "" ->
  main s
  = mkRun (trace (extract_text_from_pdfs PDF_SOURCE_DIR s)
           ++ [Print (nl ++ "No text was extracted. Exiting.")])%list
          (final (extract_text_from_pdfs PDF_SOURCE_DIR s)) (inr tt).
Proof.
  intros Hempty. unfold main.
  rewrite (bind_returned _ _ _ _ Hempty). reflexivity.
Qed.

(** C6.  When the source directory does not exist, or holds no file whose
    name ends in .pdf, or the extraction returns no text, [main] writes no
    output file (the files on disk are as before), prints what happened on
    the console, and returns without raising. *)
Theorem extractor_nothing_to_write (s : State) :
  os_path_exists PDF_SOURCE_DIR = false \/
  (os_path_exists PDF_SOURCE_DIR = true /\
   exists names, os_listdir PDF_SOURCE_DIR = inr names /\
                 filter is_pdf names = []) \/
  outcome (extract_text_from_pdfs PDF_SOURCE_DIR s) = inr "" ->
  let r := main s in
  outcome r = inr tt /\
  files (final r) = files s /\
  existsb is_write (trace r) = false /\
  In (nl ++ "No text was extracted. Exiting.") (printed (trace r)) /\
  (os_path_exists PDF_SOURCE_DIR = false ->
   In ("Error: Directory 'medical_data' not found. "
       ++ "Please create it and add your medical PDFs.")
      (printed (trace r))) /\
  (forall names,
     os_path_exists PDF_SOURCE_DIR = true ->
     os_listdir PDF_SOURCE_DIR = inr names ->
     filter is_pdf names = [] ->
     In "No PDF files found in 'medical_data'." (printed (trace r))).
Proof.
  intros Hcase r.
  assert (Hempty : outcome (extract_text_from_pdfs PDF_SOURCE_DIR s)
                   = inr "").
  { destruct Hcase as [Hdir | [[Hdir (names & Hlist & Hnone)] | Hempty]].
    - rewrite (extract_missing_dir _ _ Hdir). reflexivity.
    - rewrite (extract_no_pdfs _ _ _ Hdir Hlist Hnone). reflexivity.
    - exact Hempty. }
  subst r. rewrite (main_no_text _ Hempty). cbn [trace final outcome].
  destruct (extract_harmless PDF_SOURCE_DIR s) as [Hfiles Hquiet].
  split; [reflexivity |]. split; [exact Hfiles |].
  split; [rewrite existsb_app, Hquiet; reflexivity |].
  rewrite printed_app.
  split; [apply in_or_app; right; left; reflexivity |].
  split.
  - intros Hdir. rewrite (extract_missing_dir _ _ Hdir).
    apply in_or_app. left. right. left. reflexivity.
  - intros names Hdir Hlist Hnone.
    rewrite (extract_no_pdfs _ _ _ Hdir Hlist Hnone).
    apply in_or_app. left. right. left. reflexivity.
Qed.

(** C9.  In an existing directory the extractor opens exactly the files
    whose lower-cased name ends in .pdf, in the order of the listing; what
    it returns is the texts of their pages, file after file, put together
    with a blank line between them (and after the last); a file that fails
    is reported with its exception on a line of its own, the pages read
    before the failure are kept, and the files after it are still
    processed. *)
Theorem extractor_reads_pdfs (pdf_dir : string) (s : State)
        (names : list string) :
  os_path_exists pdf_dir = true ->
  os_listdir pdf_dir = inr names ->
  let pdf_files := filter is_pdf names in
  let paths := map (os_path_join pdf_dir) pdf_files in
  let r := extract_text_from_pdfs pdf_dir s in
  (forall f, In f pdf_files
             <-> In f names /\ endswith (lower f) ".pdf" = true) /\
  opened (trace r) = paths /\
  outcome r = inr (joined (flat_map file_texts paths)) /\
  (pdf_files <> [] ->
   printed (trace r)
   = ("Scanning for PDF files in '" ++ pdf_dir ++ "'...")
     :: ("Found " ++ str_of_nat (List.length pdf_files)
         ++ " PDF(s). Extracting text...")
     :: map (fun f => file_report f (os_path_join pdf_dir f)) pdf_files).
Proof.
  intros Hdir Hlist pdf_files paths r.
  split; [intros f; exact (filter_In is_pdf f names) |].
  destruct (filter is_pdf names) as [| f rest] eqn:Hfiles.
  - subst r paths pdf_files.
    rewrite (extract_no_pdfs _ _ _ Hdir Hlist Hfiles), ?Hfiles.
    split; [reflexivity |]. split; [reflexivity |].
    intros Hsome. contradiction.
  - assert (Hsome : filter is_pdf names <> [])
      by (rewrite Hfiles; discriminate).
    subst r paths pdf_files.
    rewrite (extract_pdfs _ _ _ Hdir Hlist Hsome), ?Hfiles.
    cbn [trace outcome]. rewrite <- terminated_joined.
    split; [| split; [reflexivity |]].
    + cbn [app opened]. apply opened_reports.
    + intros _. cbn [app printed]. rewrite printed_reports. reflexivity.
Qed.

End Extractor.

(** *** The theorems at a concrete directory *)

Definition clinic : Libs :=
  Demo.pdf_libs true Demo.clinic_names Demo.clinic_pdfs.

Definition no_pdfs : Libs := Demo.pdf_libs true ["notes.txt"] [].

Definition old_disk : State :=
  mkState [("knowledge_base.txt", "old text")] "".

Lemma extractor_nothing_to_write_witness :
  (os_path_exists (Libs := no_pdfs) PDF_SOURCE_DIR = true /\
   exists names, os_listdir (Libs := no_pdfs) PDF_SOURCE_DIR = inr names /\
                 filter is_pdf names = []) /\
  files (final (main (L := no_pdfs) old_disk))
  = [("knowledge_base.txt", "old text")].
Proof.
  split.
  - split; [reflexivity |]. exists ["notes.txt"]. split; reflexivity.
  - apply (extractor_nothing_to_write (L := no_pdfs) old_disk).
    right. left. split; [reflexivity |].
    exists ["notes.txt"]. split; reflexivity.
Defined.

Lemma extractor_reads_pdfs_witness :
  os_path_exists (Libs := clinic) "medical_data" = true /\
  os_listdir (Libs := clinic) "medical_data" = inr Demo.clinic_names /\
  opened (trace (extract_text_from_pdfs (L := clinic) "medical_data"
                                        old_disk))
  = ["medical_data/Flu.PDF"; "medical_data/bad.pdf"] /\
  outcome (extract_text_from_pdfs (L := clinic) "medical_data" old_disk)
  = inr ("Influenza" ++ nl ++ nl ++ "Rest." ++ nl ++ nl ++ "Page one"
         ++ nl ++ nl).
Proof.
  split; [reflexivity |]. split; [reflexivity |].
  destruct (extractor_reads_pdfs (L := clinic) "medical_data" old_disk
              Demo.clinic_names eq_refl eq_refl)
    as (_ & Hopened & Hout & _).
  split; [exact Hopened | exact Hout].
Defined.

End PrepareDataProofs.


(** ** The ingestion pipeline *)

Module IngestDataProofs.
Import IngestData Runs.

Section Pipeline.
Context {L : Libs}.

(** The opening [try] statement when the load raises: the [except] block
    reports it and the function is left. *)
Lemma load_failure_run (d : Disk) (e : Exception) :
  TextLoader_load KNOWLEDGE_BASE_FILE = inl e ->
  load_knowledge_base d
  = mkRun [Load KNOWLEDGE_BASE_FILE;
           Print ("Error loading knowledge base file: " ++ exc_str e)]
          d (inr None).
Proof.
  intros Hload. unfold load_knowledge_base, print.
  rewrite try_except_run, bind_call, Hload. reflexivity.
Qed.

(** C7.  When loading the knowledge-base file fails, [main] prints the
    failure and returns: nothing is split, no embedding model is loaded,
    nothing is written, and the disk (with the persisted vector store) is
    as it was before the run. *)
Theorem ingest_load_failure (d : Disk) (e : Exception) :
  TextLoader_load KNOWLEDGE_BASE_FILE = inl e ->
  let r := main d in
  trace r
  = [Print "--- Starting Data Ingestion Process ---";
     Load "knowledge_base.txt";
     Print ("Error loading knowledge base file: " ++ exc_str e)] /\
  outcome r = inr tt /\
  final r = d /\
  chroma_db (final r) = chroma_db d /\
  existsb is_pipeline_step (trace r) = false.
Proof.
  intros Hload r.
  assert (Hrun : r = mkRun
            [Print "--- Starting Data Ingestion Process ---";
             Load "knowledge_base.txt";
             Print ("Error loading knowledge base file: " ++ exc_str e)]
            d (inr tt)).
  { subst r. unfold main, print. step.
    rewrite (bind_run _ _ _ _ _ _ (load_failure_run d e Hload)).
    reflexivity. }
  rewrite Hrun. repeat split.
Qed.

End Pipeline.

Definition unloadable : Libs := Demo.ingest_libs (inl Demo.missing).

Definition stocked : Disk (L := unloadable) :=
  mkDisk (L := unloadable) [mkDocument "an earlier chunk"] ["chroma_db"].

Lemma ingest_load_failure_witness :
  TextLoader_load (Libs := unloadable) KNOWLEDGE_BASE_FILE
  = inl Demo.missing /\
  final (main (L := unloadable) stocked) = stocked.
Proof.
  split; [reflexivity |].
  apply (ingest_load_failure (L := unloadable) stocked Demo.missing).
  reflexivity.
Defined.

End IngestDataProofs.



(** ** The text splitter: chunk count and chunk sizes *)

Module SplitterProofs.
Import Splitter.
Local Open Scope list_scope.

(** *** Stripping *)




Lemma lstrip_solid (t : Text) :
  forallb is_space t = false -> lstrip t <> [].
Proof.
  induction t as [| c t IH]; [discriminate |].
  cbn [forallb lstrip]. destruct (is_space c); [exact IH | discriminate].
Qed.








(** *** Cutting and joining *)












(** *** Texts shorter than the chunk size *)

Section Sizes.
Variables (chunk_size chunk_overlap : nat).







(** *** No chunk is longer than the chunk size *)










(** *** Nothing but whitespace is lost *)













End Sizes.

(** *** The splitter of the ingestion *)






(** *** Running the splitter *)

(** Words are kept whole where they fit: a long line is cut at its spaces,
    and each chunk is stripped. *)
Example split_text_words :
  split_text (IngestData.RecursiveCharacterTextSplitter 10 3)
             "hello world foo bar baz qux"
  = ["hello"; "world foo"; "bar baz"; "qux"]%string.
Proof. vm_compute. reflexivity. Qed.

(** Paragraphs come first, then lines, then words; consecutive chunks may
    share a word. *)
Example split_text_paragraphs :
  split_text (IngestData.RecursiveCharacterTextSplitter 10 3)
             ("para one" ++ nl ++ nl ++ "para two is long" ++ nl ++ "line"
              ++ nl ++ nl ++ nl ++ "end of it all")%string
  = ["para one"; "para two"; "is long"; "line"; "end of it"; "it all"]%string.
Proof. vm_compute. reflexivity. Qed.

(** A text without any boundary is cut by size, consecutive chunks sharing
    the overlap. *)
Example split_text_characters :
  split_text (IngestData.RecursiveCharacterTextSplitter 10 3)
             "abcdefghijklmnopqrstuvwxy"
  = ["abcdefghij"; "hijklmnopq"; "opqrstuvwx"; "vwxy"]%string.
Proof. vm_compute. reflexivity. Qed.

(** With the configuration of the script: a text of 1800 characters, 300
    words with a space after each, is cut at spaces into three chunks, the
    last one short; a text of 2600 characters without any boundary gives
    three full chunks, each sharing 200 characters with the one before. *)
Example split_text_long_words :
  map String.length
      (split_text IngestData.text_splitter
                  (String.concat "" (repeat "fever "%string 300)))
  = [995; 995; 203].
Proof. vm_compute. reflexivity. Qed.

Example split_text_long_run :
  map String.length
      (split_text IngestData.text_splitter
                  (string_of_list_ascii (repeat "a"%char 2600)))
  = [1000; 1000; 1000].
Proof. vm_compute. reflexivity. Qed.


(** A knowledge base of whitespace only: the extractor writes such a file
    when the one page it could read holds a single space. *)
Definition whitespace_only : string := (" " ++ nl ++ nl)%string.

Definition scanned : PrepareData.Libs :=
  Demo.pdf_libs true ["scan.pdf"%string]
                [("medical_data/scan.pdf"%string,
                  inr (Next (inr " "%string) Stop))].

Example whitespace_knowledge_base :
  PrepareData.files
    (final (PrepareData.main (L := scanned) (PrepareData.mkState [] "")))
  = [("knowledge_base.txt"%string, whitespace_only)].
Proof. vm_compute. reflexivity. Qed.




End SplitterProofs.



(** * Further properties of the code *)

(** ** The query server: startup, the chat stream as a whole, translation *)

Module MainExtra.
Import Main Runs MainProofs.

(** [class ChatRequest(BaseModel)]. *)
Record ChatRequest : Type := mkChatRequest { query : string }.

(** [StreamingResponse(generator, media_type=)]: the status, the media type
    and the chunks of the body, in the order the generator yields them. *)
Record StreamingResponse : Type := mkStreamingResponse {
  stream_status : nat;
  media_type : string;
  chunks : list string
}.

(** The two events of the [except] block of the chat stream. *)
Definition error_events (e : Exception) : list Event :=
  [Print ("Error during streaming: " ++ exc_str e);
   Yield (sse ("An error occurred: " ++ exc_str e))].

Definition typing_events (c : string) : list Event :=
  [Yield (sse c); Sleep].

Definition chunk_events (c : AIMessageChunk) : list Event :=
  [Yield (sse (content c))].

Section Code.
Context {L : Libs}.

(** [chat(request)]. *)
Definition chat (request : ChatRequest) (g : Globals) : StreamingResponse :=
  mkStreamingResponse 200 "text/event-stream"
    (yields (trace (stream_chat_response (query request) g))).

(** What [prompt_template.format(context=, question=)] gives in a state. *)
Definition formatted (g : Globals) (context question : string)
  : Exception + string :=
  match prompt_template g with
  | None => inl (AttributeError "format")
  | Some pt => format pt [("context", context); ("question", question)]
  end.

(** The events of the model call and of the relay of its stream. *)
Definition generation_events (g : Globals) (prompt : string) : list Event :=
  match llm g with
  | None => error_events (AttributeError "astream")
  | Some model =>
      (Astream prompt
       :: flat_map chunk_events (items (astream model prompt))
       ++ match ending (astream model prompt) with
          | None => []
          | Some e => error_events e
          end)%list
  end.

(** The events after a search that returned. *)
Definition answer_events (g : Globals) (question : string)
  (retrieved_docs : list Document) : list Event :=
  match retrieved_docs with
  | [] =>
      Print "No relevant context found in the database."
      :: flat_map typing_events (chars no_context_message)
  | _ =>
      Print ("Found " ++ str_of_nat (List.length retrieved_docs)
             ++ " relevant documents.")
      :: match formatted g (join (nl ++ nl)
                                 (map page_content retrieved_docs))
                         question with
         | inl e => error_events e
         | inr prompt => generation_events g prompt
         end
  end.

(** All the events of one chat stream, by cases on what the libraries
    do. *)
Definition chat_events (question : string) (g : Globals) : list Event :=
  match vector_store g with
  | None => [Yield (sse error_message)]
  | Some vs =>
      if Chroma_bool vs then
        Print ("Searching for context for: '" ++ question ++ "'")
        :: SimilaritySearch question 5
        :: match asimilarity_search vs question 5 with
           | inl e => error_events e
           | inr retrieved_docs => answer_events g question retrieved_docs
           end
      else [Yield (sse error_message)]
  end.

End Code.

(** The template object that [startup_event] builds. *)
Definition startup_prompt : PromptTemplate :=
  mkPromptTemplate startup_template ["context"; "question"].

Definition is_construction (e : Event) : bool :=
  match e with
  | LoadEmbeddings _ _ | OpenChroma _ _ | NewChatOllama _ => true
  | _ => false
  end.

Definition is_model_construction (e : Event) : bool :=
  match e with NewChatOllama _ => true | _ => false end.

Definition is_translate (e : Event) : bool :=
  match e with Translate _ _ _ => true | _ => false end.

Section Server.
Context {L : Libs}.

Lemma format_prompt_run (context question : string) (g : Globals) :
  format_prompt context question g
  = mkRun [] g (formatted g context question).
Proof.
  unfold format_prompt, formatted. rewrite bind_gets.
  destruct (prompt_template g); reflexivity.
Qed.

(** The model call and the relay, inside the [try]. *)
Lemma generation_run (prompt : string) (g : Globals) :
  try_except
    (bind (llm_astream prompt)
          (fun llm_stream =>
             for_iter llm_stream (fun chunk => yield (sse (content chunk)))))
    chat_except g
  = mkRun (generation_events g prompt) g (inr tt).
Proof.
  rewrite try_except_run. unfold generation_events.
  destruct (llm g) as [model |] eqn:Hllm.
  - rewrite (bind_run _ _ g [Astream prompt] g (astream model prompt))
      by (unfold llm_astream; rewrite bind_gets, Hllm; step; reflexivity).
    rewrite relay_loop.
    destruct (ending (astream model prompt)) as [e |];
      unfold after; cbn [trace final outcome app].
    + reflexivity.
    + rewrite app_nil_r. reflexivity.
  - rewrite (bind_run_raised _ _ g [] g (AttributeError "astream"))
      by (unfold llm_astream; rewrite bind_gets, Hllm; reflexivity).
    reflexivity.
Qed.

(** A [try] around a step that returned and the rest is the step followed
    by the [try] around the rest. *)
Lemma try_after_step {A B} (m : Prog Event Globals A)
      (k : A -> Prog Event Globals B) handler g t a :
  m g = mkRun t g (inr a) ->
  try_except (bind m k) handler g = after t (try_except (k a) handler g).
Proof.
  intros Hm. rewrite !try_except_run, (bind_run _ _ _ _ _ _ Hm).
  unfold after; cbn [trace final outcome].
  destruct (outcome (k a g)) eqn:Hk; cbn [trace final outcome].
  - rewrite app_assoc. reflexivity.
  - rewrite Hk. reflexivity.
Qed.

(** A [try] around a step that raised runs the handler. *)
Lemma try_raised_step {A B} (m : Prog Event Globals A)
      (k : A -> Prog Event Globals B) handler g t e :
  m g = mkRun t g (inl e) ->
  try_except (bind m k) handler g = after t (handler e g).
Proof.
  intros Hm. rewrite try_except_run, (bind_run_raised _ _ _ _ _ _ Hm).
  reflexivity.
Qed.

(** The run of the chat stream, whatever the libraries do: its events are
    [chat_events], the singletons are untouched, and it returns. *)
Lemma stream_chat_response_run (question : string) (g : Globals) :
  stream_chat_response question g
  = mkRun (chat_events question g) g (inr tt).
Proof.
  unfold chat_events.
  destruct (vector_store g) as [vs |] eqn:Hset.
  2:{ apply guard_failed. rewrite Hset. reflexivity. }
  destruct (Chroma_bool vs) eqn:Htrue.
  2:{ apply guard_failed. rewrite Hset. exact Htrue. }
  rewrite guard_passed by (rewrite Hset; exact Htrue).
  unfold chat_try, print.
  rewrite (try_after_step _ _ _ g
             [Print ("Searching for context for: '" ++ question ++ "'")] tt)
    by reflexivity.
  destruct (asimilarity_search vs question 5) as [e | docs] eqn:Hsearch.
  { rewrite (try_raised_step _ _ _ g [SimilaritySearch question 5] e)
      by (rewrite (search_run _ _ _ _ Hset), Hsearch; reflexivity).
    reflexivity. }
  rewrite (try_after_step _ _ _ g [SimilaritySearch question 5] docs)
    by (rewrite (search_run _ _ _ _ Hset), Hsearch; reflexivity).
  destruct docs as [| d ds]; cbn [list_bool negb answer_events].
  { rewrite (try_after_step _ _ _ g
               [Print "No relevant context found in the database."] tt)
      by reflexivity.
    rewrite try_except_run, typing_loop. reflexivity. }
  rewrite (try_after_step _ _ _ g
             [Print ("Found " ++ str_of_nat (List.length (d :: ds))
                     ++ " relevant documents.")] tt)
    by reflexivity.
  destruct (formatted g (join (nl ++ nl) (map page_content (d :: ds)))
                      question) as [e | prompt] eqn:Hformat.
  { rewrite (try_raised_step _ _ _ g [] e)
      by (rewrite format_prompt_run, Hformat; reflexivity).
    reflexivity. }
  rewrite (try_after_step _ _ _ g [] prompt)
    by (rewrite format_prompt_run, Hformat; reflexivity).
  rewrite generation_run. reflexivity.
Qed.

Lemma filter_flat_map_none {A B} (p : B -> bool) (f : A -> list B)
      (xs : list A) :
  (forall x, filter p (f x) = []) -> filter p (flat_map f xs) = [].
Proof.
  intros Hf. induction xs as [| x xs IH]; cbn [flat_map]; [reflexivity |].
  rewrite filter_app, Hf, IH. reflexivity.
Qed.

Lemma yields_flat_map_typing (cs : list string) :
  yields (flat_map typing_events cs) = map sse cs.
Proof. exact (yields_typing cs). Qed.

Lemma yields_flat_map_chunks (cs : list AIMessageChunk) :
  yields (flat_map chunk_events cs) = map (fun c => sse (content c)) cs.
Proof. exact (yields_chunks cs). Qed.

(** What the client receives from the model call and the relay. *)
Lemma yields_generation (g : Globals) (prompt : string) :
  yields (generation_events g prompt)
  = match llm g with
    | None => [sse ("An error occurred: " ++ exc_str (AttributeError "astream"))]
    | Some model =>
        (map (fun c => sse (content c)) (items (astream model prompt))
         ++ match ending (astream model prompt) with
            | None => []
            | Some e => [sse ("An error occurred: " ++ exc_str e)]
            end)%list
    end.
Proof.
  unfold generation_events. destruct (llm g) as [model |]; [| reflexivity].
  cbn [yields]. rewrite yields_app, yields_flat_map_chunks.
  destruct (ending (astream model prompt)); reflexivity.
Qed.

(** X1.  One chat request searches at most once and calls the model at
    most once (nothing is retried), searches exactly once, for 5 chunks,
    when the vector store passes the guard, and leaves the three singletons
    as they were. *)
Theorem chat_calls_at_most_once (question : string) (g : Globals) :
  let r := stream_chat_response question g in
  List.length (filter is_search (trace r)) <= 1 /\
  List.length (filter is_llm_call (trace r)) <= 1 /\
  (vector_store_bool (vector_store g) = true ->
   filter is_search (trace r) = [SimilaritySearch question 5]) /\
  final r = g.
Proof.
  intros r. subst r. rewrite stream_chat_response_run.
  cbn [trace final]. unfold chat_events, answer_events, generation_events.
  assert (Hs : forall cs, filter is_search (flat_map chunk_events cs) = [])
    by (intros cs; apply filter_flat_map_none; reflexivity).
  assert (Ht : forall cs, filter is_search (flat_map typing_events cs) = [])
    by (intros cs; apply filter_flat_map_none; reflexivity).
  assert (Hs' : forall cs, filter is_llm_call (flat_map chunk_events cs) = [])
    by (intros cs; apply filter_flat_map_none; reflexivity).
  assert (Ht' : forall cs, filter is_llm_call (flat_map typing_events cs) = [])
    by (intros cs; apply filter_flat_map_none; reflexivity).
  destruct (vector_store g) as [vs |]; cbn [vector_store_bool];
    [| repeat split; cbn; try lia; discriminate].
  destruct (Chroma_bool vs);
    [| repeat split; cbn; try lia; discriminate].
  destruct (asimilarity_search vs question 5) as [e | [| d ds]];
    cbn [filter is_search is_llm_call error_events List.length app].
  - repeat split; lia.
  - rewrite Ht, Ht'. repeat split; cbn [List.length]; lia.
  - destruct (formatted g _ question) as [e | prompt];
      cbn [filter is_search is_llm_call error_events List.length app].
    + repeat split; lia.
    + destruct (llm g) as [model |];
        cbn [filter is_search is_llm_call error_events List.length app].
      * rewrite !filter_app, Hs, Hs'.
        destruct (ending (astream model prompt));
          repeat split; cbn; lia.
      * repeat split; lia.
Qed.

Lemma no_llm_call_in_errors (e : Exception) :
  existsb is_llm_call (error_events e) = false.
Proof. reflexivity. Qed.

Lemma no_llm_call_in_typing (cs : list string) :
  existsb is_llm_call (flat_map typing_events cs) = false.
Proof.
  induction cs as [| c cs IH]; [reflexivity | exact IH].
Qed.

(** X2.  The model is called only after a search that returned at least
    one document, and then with the prompt formatted from the joined page
    contents and the query; a failed or empty retrieval never reaches the
    model. *)
Theorem chat_model_needs_context (question : string) (g : Globals) :
  existsb is_llm_call (trace (stream_chat_response question g)) = true ->
  exists vs d ds prompt,
    vector_store g = Some vs /\
    asimilarity_search vs question 5 = inr (d :: ds) /\
    formatted g (join (nl ++ nl) (map page_content (d :: ds))) question
    = inr prompt /\
    In (Astream prompt) (trace (stream_chat_response question g)).
Proof.
  rewrite stream_chat_response_run. cbn [trace].
  unfold chat_events, answer_events, generation_events.
  destruct (vector_store g) as [vs |] eqn:Hset; [| discriminate].
  destruct (Chroma_bool vs); [| discriminate].
  destruct (asimilarity_search vs question 5) as [e | [| d ds]] eqn:Hsearch;
    cbn [existsb is_llm_call orb].
  - discriminate.
  - rewrite no_llm_call_in_typing. discriminate.
  - destruct (formatted g _ question) as [e | prompt] eqn:Hformat;
      [discriminate |].
    destruct (llm g) as [model |]; [| discriminate].
    intros _. exists vs, d, ds, prompt.
    split; [reflexivity |]. split; [exact Hsearch |].
    split; [exact Hformat |].
    right. right. right. left. reflexivity.
Qed.

(** X3.  Every chunk of the body of a [/chat] response has the form of a
    server-sent event, [data: ] followed by a text and an empty line, on
    every path: not initialized, disclaimer, relayed answer, error. *)
Theorem chat_events_framed (request : ChatRequest) (g : Globals) :
  stream_status (chat request g) = 200 /\
  media_type (chat request g) = "text/event-stream" /\
  Forall (fun chunk => exists x, chunk = "data: " ++ x ++ nl ++ nl)
         (chunks (chat request g)).
Proof.
  split; [reflexivity |]. split; [reflexivity |].
  unfold chat. cbn [chunks]. rewrite stream_chat_response_run.
  cbn [trace]. unfold chat_events, answer_events.
  assert (Hmap : forall A (f : A -> string) (xs : list A),
             Forall (fun chunk => exists x, chunk = "data: " ++ x ++ nl ++ nl)
                    (map (fun a => sse (f a)) xs)).
  { intros A f xs. apply Forall_map, Forall_forall. intros a _.
    exists (f a). reflexivity. }
  assert (Hone : forall x,
             Forall (fun chunk => exists y, chunk = "data: " ++ y ++ nl ++ nl)
                    [sse x]).
  { intros x. constructor; [exists x; reflexivity | constructor]. }
  destruct (vector_store g) as [vs |]; [| apply Hone].
  destruct (Chroma_bool vs); [| apply Hone].
  cbn [yields].
  destruct (asimilarity_search vs (query request) 5) as [e | [| d ds]].
  - apply Hone.
  - cbn [yields]. rewrite yields_flat_map_typing.
    apply (Hmap string (fun c => c)).
  - cbn [yields].
    destruct (formatted g _ (query request)) as [e | prompt];
      [apply Hone |].
    rewrite yields_generation.
    destruct (llm g) as [model |]; [| apply Hone].
    apply Forall_app. split; [apply (Hmap _ content) |].
    destruct (ending (astream model prompt)); [apply Hone | constructor].
Qed.

(** X4.  The body of a [/chat] response is empty in one case only: the
    search found documents, the prompt was formatted, the model was called
    and its stream ended without a chunk and without an error. *)
Theorem chat_empty_body (request : ChatRequest) (g : Globals) :
  chunks (chat request g) = [] <->
  exists vs d ds prompt model,
    vector_store g = Some vs /\ Chroma_bool vs = true /\
    asimilarity_search vs (query request) 5 = inr (d :: ds) /\
    formatted g (join (nl ++ nl) (map page_content (d :: ds)))
              (query request) = inr prompt /\
    llm g = Some model /\
    astream model prompt = Stop.
Proof.
  unfold chat. cbn [chunks]. rewrite stream_chat_response_run.
  cbn [trace]. unfold chat_events, answer_events. split.
  - destruct (vector_store g) as [vs |]; [| discriminate].
    destruct (Chroma_bool vs) eqn:Htrue; [| discriminate].
    cbn [yields].
    destruct (asimilarity_search vs (query request) 5)
      as [e | [| d ds]] eqn:Hsearch; [discriminate | discriminate |].
    cbn [yields].
    destruct (formatted g _ (query request)) as [e | prompt] eqn:Hformat;
      [discriminate |].
    rewrite yields_generation.
    destruct (llm g) as [model |] eqn:Hllm; [| discriminate].
    destruct (astream model prompt) as [| e | c rest] eqn:Hstream;
      [| discriminate | discriminate].
    intros _. exists vs, d, ds, prompt, model. repeat split; assumption.
  - intros (vs & d & ds & prompt & model & Hset & Htrue & Hsearch & Hformat
            & Hllm & Hstream).
    rewrite Hset, Htrue, Hsearch. cbn [yields]. rewrite Hformat.
    rewrite yields_generation, Hllm, Hstream. reflexivity.
Qed.

(** X5.  When the similarity search raises, the client receives exactly one
    event, which carries the text of the exception, and the model is not
    called. *)
Theorem chat_search_failure (question : string) (g : Globals) (vs : Chroma)
        (e : Exception) :
  vector_store g = Some vs ->
  Chroma_bool vs = true ->
  asimilarity_search vs question 5 = inl e ->
  let r := stream_chat_response question g in
  trace r
  = [Print ("Searching for context for: '" ++ question ++ "'");
     SimilaritySearch question 5;
     Print ("Error during streaming: " ++ exc_str e);
     Yield ("data: An error occurred: " ++ exc_str e ++ nl ++ nl)] /\
  yields (trace r) = ["data: An error occurred: " ++ exc_str e ++ nl ++ nl] /\
  existsb is_llm_call (trace r) = false.
Proof.
  intros Hset Htrue Hsearch r. subst r.
  rewrite stream_chat_response_run. cbn [trace].
  unfold chat_events. rewrite Hset, Htrue, Hsearch.
  repeat split.
Qed.

(** X6.  When the vector store passes the guard and documents are found
    but the prompt template is unset, the request ends with the single
    event of an [AttributeError] on [format] and the model is not called;
    when the template formats but the model client is unset, it ends with
    the single event of an [AttributeError] on [astream]. *)
Theorem chat_unset_template_or_model (question : string) (g : Globals)
        (vs : Chroma) (d : Document) (ds : list Document) :
  vector_store g = Some vs ->
  Chroma_bool vs = true ->
  asimilarity_search vs question 5 = inr (d :: ds) ->
  let r := stream_chat_response question g in
  (prompt_template g = None ->
   yields (trace r)
   = ["data: An error occurred: 'NoneType' object has no attribute 'format'"
      ++ nl ++ nl] /\
   existsb is_llm_call (trace r) = false) /\
  (forall prompt,
     formatted g (join (nl ++ nl) (map page_content (d :: ds))) question
     = inr prompt ->
     llm g = None ->
     yields (trace r)
     = ["data: An error occurred: 'NoneType' object has no attribute 'astream'"
        ++ nl ++ nl] /\
     existsb is_llm_call (trace r) = false).
Proof.
  intros Hset Htrue Hsearch r. subst r.
  rewrite stream_chat_response_run. cbn [trace].
  unfold chat_events, answer_events. rewrite Hset, Htrue, Hsearch.
  split.
  - intros Hnone. unfold formatted. rewrite Hnone. split; reflexivity.
  - intros prompt Hformat Hnone. rewrite Hformat.
    unfold generation_events. rewrite Hnone. split; reflexivity.
Qed.

(** X7.  A vector-store handle that is set but tests false is treated like
    an unset one: the single not-initialized event, no search, no model
    call. *)
Theorem chat_falsy_handle (question : string) (g : Globals) (vs : Chroma) :
  vector_store g = Some vs ->
  Chroma_bool vs = false ->
  let r := stream_chat_response question g in
  trace r = [Yield (sse error_message)] /\
  outcome r = inr tt.
Proof.
  intros Hset Hfalse r. subst r.
  rewrite stream_chat_response_run. cbn [trace outcome].
  unfold chat_events. rewrite Hset, Hfalse. split; reflexivity.
Qed.

(** X8.  When the persisted directory is missing, the startup hook, from
    any state of the singletons, prints the error, constructs nothing (no
    embedding model, no vector store, no model client), leaves the
    singletons as they were and returns. *)
Theorem startup_missing_directory (g : Globals) :
  os_path_exists CHROMA_PERSIST_DIR = false ->
  let r := startup_event g in
  trace r
  = [Print "--- Server starting up: Initializing RAG components ---";
     Print "Error: ChromaDB directory 'chroma_db' not found."] /\
  existsb is_construction (trace r) = false /\
  final r = g /\
  outcome r = inr tt.
Proof.
  intros Hdir r.
  assert (Hrun : r = mkRun
            [Print "--- Server starting up: Initializing RAG components ---";
             Print "Error: ChromaDB directory 'chroma_db' not found."]
            g (inr tt)).
  { subst r. unfold startup_event, print. step. rewrite Hdir. reflexivity. }
  rewrite Hrun. repeat split.
Qed.

(** X9.  The startup hook has no handler of its own: when loading the
    embedding model or opening the vector store raises, the hook raises
    the same exception, the singletons are as they were, and the model
    client is not constructed. *)
Theorem startup_store_failure (g : Globals) (e : Exception) :
  os_path_exists CHROMA_PERSIST_DIR = true ->
  SentenceTransformerEmbeddings EMBEDDING_MODEL_NAME MODEL_CACHE_DIR = inl e
  \/ (exists emb,
        SentenceTransformerEmbeddings EMBEDDING_MODEL_NAME MODEL_CACHE_DIR
        = inr emb /\
        Chroma_new CHROMA_PERSIST_DIR emb COLLECTION_NAME = inl e) ->
  let r := startup_event g in
  outcome r = inl e /\
  final r = g /\
  existsb is_model_construction (trace r) = false.
Proof.
  intros Hdir Hfail r. subst r. unfold startup_event, print. step.
  rewrite Hdir. cbn [negb]. step.
  destruct Hfail as [Hemb | (emb & Hemb & Hstore)]; rewrite Hemb.
  - repeat split.
  - step. rewrite Hstore. repeat split.
Qed.

(** X10.  When the model client constructor raises after the vector store
    was opened, the hook raises the same exception and leaves the vector
    store and the prompt template assigned, while the model client keeps
    the value it had. *)
Theorem startup_model_failure (g : Globals) (emb : Embeddings) (vs : Chroma)
        (e : Exception) :
  os_path_exists CHROMA_PERSIST_DIR = true ->
  SentenceTransformerEmbeddings EMBEDDING_MODEL_NAME MODEL_CACHE_DIR
  = inr emb ->
  Chroma_new CHROMA_PERSIST_DIR emb COLLECTION_NAME = inr vs ->
  ChatOllama_new LLM_MODEL_NAME = inl e ->
  let r := startup_event g in
  outcome r = inl e /\
  vector_store (final r) = Some vs /\
  prompt_template (final r) = Some startup_prompt /\
  llm (final r) = llm g.
Proof.
  intros Hdir Hemb Hstore Hmodel r. subst r.
  unfold startup_event, print. step. rewrite Hdir. cbn [negb].
  step. rewrite Hemb. step. rewrite Hstore. steps. rewrite Hmodel.
  repeat split.
Qed.

(** X11.  When the directory exists and the three constructors return, the
    hook, from any state of the singletons, loads the embedding model,
    opens the vector store with that embedding function and creates the
    model client, each once and in this order, and leaves the three
    singletons set to the new store, the new client and the fixed
    template. *)
Theorem startup_success (g : Globals) (emb : Embeddings) (vs : Chroma)
        (model : ChatOllama) :
  os_path_exists CHROMA_PERSIST_DIR = true ->
  SentenceTransformerEmbeddings EMBEDDING_MODEL_NAME MODEL_CACHE_DIR
  = inr emb ->
  Chroma_new CHROMA_PERSIST_DIR emb COLLECTION_NAME = inr vs ->
  ChatOllama_new LLM_MODEL_NAME = inr model ->
  let r := startup_event g in
  filter is_construction (trace r)
  = [LoadEmbeddings "sentence-transformers/all-MiniLM-L6-v2" "model_cache";
     OpenChroma "chroma_db" "medical_knowledge";
     NewChatOllama "phi3:mini"] /\
  final r = mkGlobals (Some vs) (Some model) (Some startup_prompt) /\
  outcome r = inr tt.
Proof.
  intros Hdir Hemb Hstore Hmodel r. subst r.
  unfold startup_event, print. step. rewrite Hdir. cbn [negb].
  step. rewrite Hemb. step. rewrite Hstore. steps. rewrite Hmodel. steps.
  repeat split.
Qed.

(** X12.  A translation request makes exactly one call to the translator,
    with the source language, target language and text of the request;
    a failure is printed on the console; the singletons are not
    touched. *)
Theorem translate_single_call (request : TranslationRequest) (g : Globals) :
  let r := translate_text request g in
  filter is_translate (trace r)
  = [Translate (source_lang request) (target_lang request) (text request)] /\
  final r = g /\
  (forall e,
     GoogleTranslator_translate (source_lang request) (target_lang request)
                                (text request) = inl e ->
     trace r
     = [Translate (source_lang request) (target_lang request)
                  (text request);
        Print ("Google Translate Error: " ++ exc_str e)]).
Proof.
  intros r. subst r. unfold translate_text, print.
  rewrite try_except_run, bind_call.
  destruct (GoogleTranslator_translate _ _ _) as [e | result].
  - repeat split. intros e' He'. injection He' as <-. reflexivity.
  - repeat split. discriminate.
Qed.

End Server.

(** *** The theorems at concrete hosts *)

(** A host by what its constructors, the truth test of its store, its
    search and its model do. *)
Definition host (embeddings store model : Exception + unit) (truth : bool)
  (found : Exception + list Document) (answer : Iterator AIMessageChunk)
  : Libs :=
  {| Chroma := unit;
     ChatOllama := unit;
     Embeddings := unit;
     os_path_exists := fun _ => true;
     SentenceTransformerEmbeddings := fun _ _ => embeddings;
     Chroma_new := fun _ _ _ => store;
     ChatOllama_new := fun _ => model;
     Chroma_bool := fun _ => truth;
     asimilarity_search := fun _ _ _ => found;
     astream := fun _ _ => answer;
     GoogleTranslator_translate := fun _ _ _ => inl Demo.timeout |}.

Definition refused : Exception :=
  mkExc "ConnectionError" "connection refused".

(** The model streams nothing. *)
Definition mute : Libs :=
  host (inr tt) (inr tt) (inr tt) true (inr Demo.two_docs) Stop.

(** The store tests false. *)
Definition hollow : Libs :=
  host (inr tt) (inr tt) (inr tt) false (inr Demo.two_docs) Demo.hello.

(** The store cannot be opened. *)
Definition no_store : Libs :=
  host (inr tt) (inl refused) (inr tt) true (inr []) Stop.

(** The model client cannot be created. *)
Definition no_model : Libs :=
  host (inr tt) (inr tt) (inl refused) true (inr []) Stop.

Definition fever : string := "What is a fever?".

Lemma chat_calls_at_most_once_witness :
  vector_store_bool (L := warm) (vector_store (ready warm)) = true /\
  filter is_search
         (trace (stream_chat_response (L := warm) fever (ready warm)))
  = [SimilaritySearch fever 5].
Proof.
  split; [reflexivity |].
  apply (chat_calls_at_most_once (L := warm) fever (ready warm)).
  reflexivity.
Defined.

Lemma chat_model_needs_context_witness :
  existsb is_llm_call
          (trace (stream_chat_response (L := warm) fever (ready warm)))
  = true /\
  exists vs d ds prompt,
    vector_store (ready warm) = Some vs /\
    asimilarity_search (Libs := warm) vs fever 5 = inr (d :: ds) /\
    formatted (ready warm) (join (nl ++ nl) (map page_content (d :: ds)))
              fever = inr prompt /\
    In (Astream prompt)
       (trace (stream_chat_response (L := warm) fever (ready warm))).
Proof.
  split; [reflexivity |].
  apply (chat_model_needs_context (L := warm) fever (ready warm)).
  reflexivity.
Defined.

Lemma chat_empty_body_witness :
  chunks (chat (L := mute) (mkChatRequest fever) (ready mute)) = [].
Proof.
  apply (chat_empty_body (L := mute) (mkChatRequest fever) (ready mute)).
  exists tt, (mkDocument "Fever is a rise in body temperature."),
    [mkDocument "Rest and fluids help."].
  eexists _, tt. repeat split.
Defined.

Lemma chat_search_failure_witness :
  vector_store (ready flaky) = Some tt /\
  Chroma_bool (Libs := flaky) tt = true /\
  asimilarity_search (Libs := flaky) tt fever 5 = inl Demo.timeout /\
  yields (trace (stream_chat_response (L := flaky) fever (ready flaky)))
  = ["data: An error occurred: timed out" ++ nl ++ nl].
Proof.
  split; [reflexivity |]. split; [reflexivity |]. split; [reflexivity |].
  apply (chat_search_failure (L := flaky) fever (ready flaky) tt
                             Demo.timeout); reflexivity.
Defined.

(** The state that a startup interrupted at the model client leaves. *)
Definition half_ready : Globals (L := warm) :=
  mkGlobals (L := warm) (Some tt) None (Some startup_prompt).

Lemma chat_unset_template_or_model_witness :
  vector_store half_ready = Some tt /\
  Chroma_bool (Libs := warm) tt = true /\
  asimilarity_search (Libs := warm) tt fever 5 = inr Demo.two_docs /\
  llm half_ready = None /\
  yields (trace (stream_chat_response (L := warm) fever half_ready))
  = ["data: An error occurred: 'NoneType' object has no attribute 'astream'"
     ++ nl ++ nl].
Proof.
  split; [reflexivity |]. split; [reflexivity |]. split; [reflexivity |].
  split; [reflexivity |].
  destruct (chat_unset_template_or_model (L := warm) fever half_ready tt
              (mkDocument "Fever is a rise in body temperature.")
              [mkDocument "Rest and fluids help."]
              eq_refl eq_refl eq_refl) as [_ Hmodel].
  eapply Hmodel; reflexivity.
Defined.

Lemma chat_falsy_handle_witness :
  vector_store (ready hollow) = Some tt /\
  Chroma_bool (Libs := hollow) tt = false /\
  trace (stream_chat_response (L := hollow) fever (ready hollow))
  = [Yield (sse error_message)].
Proof.
  split; [reflexivity |]. split; [reflexivity |].
  apply (chat_falsy_handle (L := hollow) fever (ready hollow) tt);
    reflexivity.
Defined.

(** Singletons left over in a process whose directory has gone. *)
Definition half_cold : Globals (L := cold) :=
  mkGlobals (L := cold) (Some tt) None None.

Lemma startup_missing_directory_witness :
  os_path_exists (Libs := cold) CHROMA_PERSIST_DIR = false /\
  final (startup_event (L := cold) half_cold) = half_cold.
Proof.
  split; [reflexivity |].
  apply (startup_missing_directory (L := cold) half_cold). reflexivity.
Defined.

Lemma startup_store_failure_witness :
  os_path_exists (Libs := no_store) CHROMA_PERSIST_DIR = true /\
  outcome (startup_event (L := no_store) module_globals) = inl refused /\
  final (startup_event (L := no_store) module_globals) = module_globals.
Proof.
  split; [reflexivity |].
  destruct (startup_store_failure (L := no_store) module_globals refused
              eq_refl (or_intror (ex_intro _ tt (conj eq_refl eq_refl))))
    as (Hout & Hfinal & _).
  split; [exact Hout | exact Hfinal].
Defined.

Lemma startup_model_failure_witness :
  os_path_exists (Libs := no_model) CHROMA_PERSIST_DIR = true /\
  ChatOllama_new (Libs := no_model) LLM_MODEL_NAME = inl refused /\
  vector_store (final (startup_event (L := no_model) module_globals))
  = Some tt /\
  llm (final (startup_event (L := no_model) module_globals)) = None.
Proof.
  split; [reflexivity |]. split; [reflexivity |].
  destruct (startup_model_failure (L := no_model) module_globals tt tt
              refused eq_refl eq_refl eq_refl eq_refl)
    as (_ & Hstore & _ & Hllm).
  split; [exact Hstore | exact Hllm].
Defined.

Lemma startup_success_witness :
  os_path_exists (Libs := warm) CHROMA_PERSIST_DIR = true /\
  final (startup_event (L := warm) half_ready)
  = mkGlobals (L := warm) (Some tt) (Some tt) (Some startup_prompt).
Proof.
  split; [reflexivity |].
  apply (startup_success (L := warm) half_ready tt tt tt); reflexivity.
Defined.

Lemma translate_single_call_witness :
  GoogleTranslator_translate (Libs := flaky) "auto" "xx" "fever"
  = inl Demo.timeout /\
  trace (translate_text (L := flaky)
           (mkTranslationRequest "fever" "xx" "auto") (ready flaky))
  = [Translate "auto" "xx" "fever";
     Print "Google Translate Error: timed out"].
Proof.
  split; [reflexivity |].
  destruct (translate_single_call (L := flaky)
              (mkTranslationRequest "fever" "xx" "auto") (ready flaky))
    as (_ & _ & Hfailed).
  exact (Hfailed Demo.timeout eq_refl).
Defined.

End MainExtra.


(** ** Where the chat stream and the startup hook do otherwise *)

Module MainLimits.
Import Main MainProofs MainExtra.


(** The singletons that a startup interrupted at the model client
    leaves. *)
Definition interrupted : Globals (L := no_model) :=
  final (startup_event (L := no_model) module_globals).


(** The vector store is set and the search returns two documents, yet
    no increment of the model's stream is relayed: with the model client
    unset the stream is the single error event and the model is not
    called; with a handle that tests false it is the single
    not-initialized event and nothing is searched. *)
Lemma chat_relays_answer_counterexample :
  (vector_store half_ready = Some tt /\
   asimilarity_search (Libs := warm) tt "What is a fever?" 5
   = inr [mkDocument "Fever is a rise in body temperature.";
          mkDocument "Rest and fluids help."] /\
   llm half_ready = None /\
   yields (trace (stream_chat_response (L := warm) "What is a fever?"
                                       half_ready))
   = ["data: An error occurred: 'NoneType' object has no attribute 'astream'"
      ++ nl ++ nl] /\
   filter is_llm_call
          (trace (stream_chat_response (L := warm) "What is a fever?"
                                       half_ready)) = []) /\
  (vector_store (ready hollow) = Some tt /\
   asimilarity_search (Libs := hollow) tt "What is a fever?" 5
   = inr [mkDocument "Fever is a rise in body temperature.";
          mkDocument "Rest and fluids help."] /\
   trace (stream_chat_response (L := hollow) "What is a fever?"
                               (ready hollow))
   = [Yield ("data: Vector store is not initialized. Please check server startup logs."
             ++ nl ++ nl)]).
Proof.
  split.
  - split; [reflexivity |]. split; [reflexivity |]. split; [reflexivity |].
    split; vm_compute; reflexivity.
  - split; [reflexivity |]. split; [reflexivity |].
    vm_compute. reflexivity.
Qed.

(** The startup hook has run and raised at the model client: the vector
    store and the template are set, the model client is not, and a chat
    request in that state passes the guard. *)
Lemma startup_all_or_nothing_counterexample :
  outcome (startup_event (L := no_model) module_globals) = inl refused /\
  vector_store interrupted = Some tt /\
  prompt_template interrupted <> None /\
  llm interrupted = None /\
  vector_store_bool (L := no_model) (vector_store interrupted) = true /\
  ~ (vector_store interrupted <> None
     <-> llm interrupted <> None /\ prompt_template interrupted <> None).
Proof.
  split; [reflexivity |]. split; [reflexivity |].
  split; [discriminate |]. split; [reflexivity |]. split; [reflexivity |].
  intros [Hall _].
  destruct Hall as [Hllm _]; [discriminate |].
  apply Hllm. reflexivity.
Qed.

End MainLimits.


(** ** The PDF extractor: the selection of files and the output file *)

Module PrepareDataExtra.
Import PrepareData Runs PrepareDataProofs.

(** The contents of the file at [path], if there is one. *)
Fixpoint read_file (path : string) (fs : list (string * string))
  : option string :=
  match fs with
  | [] => None
  | (p, contents) :: rest =>
      if String.eqb p path then Some contents else read_file path rest
  end.

Lemma length_append (a b : string) :
  String.length (a ++ b) = String.length a + String.length b.
Proof.
  induction a as [| c a IH]; cbn; [reflexivity |]. rewrite IH. reflexivity.
Qed.

Lemma length_lower (s : string) : String.length (lower s) = String.length s.
Proof.
  induction s as [| c s IH]; cbn; [reflexivity |]. rewrite IH. reflexivity.
Qed.

Lemma lower_append (a b : string) : lower (a ++ b) = lower a ++ lower b.
Proof.
  induction a as [| c a IH]; cbn; [reflexivity |]. rewrite IH. reflexivity.
Qed.

Lemma lower_substring (n m : nat) (s : string) :
  lower (substring n m s) = substring n m (lower s).
Proof.
  revert n m. induction s as [| c s IH]; intros n m.
  - destruct n, m; reflexivity.
  - destruct n as [| n].
    + destruct m as [| m]; cbn; [reflexivity |]. rewrite IH. reflexivity.
    + cbn. apply IH.
Qed.

Lemma substring_whole (s : string) : substring 0 (String.length s) s = s.
Proof.
  induction s as [| c s IH]; cbn; [reflexivity |]. rewrite IH. reflexivity.
Qed.

Lemma substring_suffix (a b : string) :
  substring (String.length a) (String.length b) (a ++ b) = b.
Proof.
  induction a as [| c a IH]; cbn; [apply substring_whole | exact IH].
Qed.

(** A string is its first [k] characters followed by the rest. *)
Lemma substring_split (s : string) (k : nat) :
  k <= String.length s ->
  s = substring 0 k s ++ substring k (String.length s - k) s.
Proof.
  revert k. induction s as [| c s IH]; intros k Hk.
  - destruct k; [reflexivity | cbn in Hk; lia].
  - destruct k as [| k].
    + cbn. rewrite substring_whole. reflexivity.
    + cbn in Hk. cbn. rewrite <- IH by lia. reflexivity.
Qed.

Lemma endswith_append (a b : string) : endswith (a ++ b) b = true.
Proof.
  unfold endswith. rewrite length_append.
  replace (String.length a + String.length b - String.length b)
    with (String.length a) by lia.
  rewrite substring_suffix, String.eqb_refl.
  destruct (Nat.leb_spec (String.length b)
                         (String.length a + String.length b));
    [reflexivity | lia].
Qed.

(** X13.  A name is taken as a PDF exactly when it ends in four characters
    that read [.pdf] once lower-cased, in whatever mix of cases they are
    written; what comes before them does not matter. *)
Theorem is_pdf_iff (f : string) :
  is_pdf f = true <->
  exists stem ext, f = stem ++ ext /\ lower ext = ".pdf".
Proof.
  unfold is_pdf. split.
  - unfold endswith. rewrite length_lower. cbn [String.length].
    intros Hends. apply andb_prop in Hends as [Hlen Heq].
    apply Nat.leb_le in Hlen. apply String.eqb_eq in Heq.
    exists (substring 0 (String.length f - 4) f),
      (substring (String.length f - 4) 4 f).
    split.
    + rewrite (substring_split f (String.length f - 4)) at 1 by lia.
      replace (String.length f - (String.length f - 4)) with 4 by lia.
      reflexivity.
    + rewrite lower_substring. exact Heq.
  - intros (stem & ext & -> & Hext).
    rewrite lower_append, Hext. apply endswith_append.
Qed.

Lemma is_pdf_iff_witness :
  is_pdf "Flu.PDF" = true /\
  exists stem ext, "Flu.PDF" = stem ++ ext /\ lower ext = ".pdf".
Proof.
  split; [reflexivity |].
  apply (is_pdf_iff "Flu.PDF"). reflexivity.
Defined.

Lemma read_file_written (path contents : string) (s : State) :
  read_file path (files (write_file path contents s)) = Some contents.
Proof.
  cbn. rewrite String.eqb_refl. reflexivity.
Qed.

Lemma read_file_filter_other (path other : string)
      (fs : list (string * string)) :
  other <> path ->
  read_file other (filter (fun f => negb (String.eqb (fst f) path)) fs)
  = read_file other fs.
Proof.
  intros Hother. induction fs as [| [p c] fs IH]; cbn; [reflexivity |].
  destruct (String.eqb_spec p path) as [-> | Hp]; cbn.
  - destruct (String.eqb_spec path other) as [<- | _];
      [contradiction | exact IH].
  - rewrite IH. reflexivity.
Qed.

Lemma read_file_other (path other contents : string) (s : State) :
  other <> path ->
  read_file other (files (write_file path contents s))
  = read_file other (files s).
Proof.
  intros Hother. cbn.
  destruct (String.eqb_spec path other) as [<- | _]; [contradiction |].
  apply read_file_filter_other. exact Hother.
Qed.

Lemma str_bool_terminated (texts : list string) :
  texts <> [] -> str_bool (terminated texts) = true.
Proof.
  destruct texts as [| t rest]; [contradiction |]. intros _.
  cbn [terminated]. destruct t; reflexivity.
Qed.

Lemma no_write_filter {A} (f : A -> string) (g : A -> string)
      (xs : list A) :
  filter is_write (flat_map (fun x => [OpenPdf (f x); Print (g x)]) xs) = [].
Proof.
  induction xs as [| x xs IH]; [reflexivity | exact IH].
Qed.

Section Script.
Context {L : Libs}.

(** The page texts of the selected files of the source directory. *)
Definition source_texts (names : list string) : list string :=
  flat_map file_texts
           (map (os_path_join PDF_SOURCE_DIR) (filter is_pdf names)).

Lemma source_texts_files (names : list string) :
  source_texts names <> [] -> filter is_pdf names <> [].
Proof.
  unfold source_texts. intros Htexts Hnone. apply Htexts.
  rewrite Hnone. reflexivity.
Qed.

(** [main] up to the opening of the output file, when some page gave
    text. *)
Lemma main_some_text (s : State) (names : list string) :
  os_path_exists PDF_SOURCE_DIR = true ->
  os_listdir PDF_SOURCE_DIR = inr names ->
  source_texts names <> [] ->
  exists t,
    existsb is_write t = false /\ filter is_write t = [] /\
    main s
    = after t
        (bind (lift (open_w OUTPUT_TEXT_FILE))
              (fun _ =>
                 bind (emit (WriteFile OUTPUT_TEXT_FILE
                                       (joined (source_texts names))))
                      (fun _ =>
                         bind (modify (write_file OUTPUT_TEXT_FILE
                                         (joined (source_texts names))))
                              (fun _ =>
                                 bind (print
                                         (nl
                                          ++ "Successfully extracted and saved text to '"
                                          ++ OUTPUT_TEXT_FILE ++ "'."))
                                      (fun _ =>
                                         print
                                           ("Total characters extracted: "
                                            ++ str_of_nat
                                                 (String.length
                                                    (joined
                                                       (source_texts names))))))))
              (mkState (files s) (joined (source_texts names)))).
Proof.
  intros Hdir Hlist Htexts.
  pose proof (extract_pdfs PDF_SOURCE_DIR s names Hdir Hlist
                (source_texts_files names Htexts)) as Hrun.
  cbv zeta in Hrun. fold (source_texts names) in Hrun.
  rewrite terminated_joined in Hrun.
  eexists. split; [| split]; cycle 2.
  - unfold main. rewrite (bind_run _ _ _ _ _ _ Hrun).
    rewrite <- terminated_joined, str_bool_terminated by exact Htexts.
    rewrite terminated_joined. reflexivity.
  - cbn [app existsb is_write orb]. apply no_write_in_reports.
  - cbn [app filter is_write]. apply no_write_filter.
Qed.

(** X14.  When at least one page of the selected PDFs gives text and the
    output file can be opened, [main] writes the file once; afterwards
    [knowledge_base.txt] holds exactly the page texts joined by blank
    lines, whatever it held before, and every other file is as it was. *)
Theorem main_writes_knowledge_base (s : State) (names : list string) :
  os_path_exists PDF_SOURCE_DIR = true ->
  os_listdir PDF_SOURCE_DIR = inr names ->
  source_texts names <> [] ->
  open_w OUTPUT_TEXT_FILE = inr tt ->
  let r := main s in
  read_file "knowledge_base.txt" (files (final r))
  = Some (joined (source_texts names)) /\
  (forall path,
     path <> "knowledge_base.txt" ->
     read_file path (files (final r)) = read_file path (files s)) /\
  filter is_write (trace r)
  = [WriteFile "knowledge_base.txt" (joined (source_texts names))] /\
  outcome r = inr tt.
Proof.
  intros Hdir Hlist Htexts Hopen r. subst r.
  destruct (main_some_text s names Hdir Hlist Htexts)
    as (t & _ & Hquiet & ->).
  rewrite bind_lift, Hopen. unfold print. steps.
  unfold after, emit. cbn [trace final outcome].
  split; [apply read_file_written |].
  split; [intros path Hpath; rewrite read_file_other by exact Hpath;
          reflexivity |].
  split; [| reflexivity].
  rewrite filter_app, Hquiet. reflexivity.
Qed.

(** X15.  When the output file cannot be opened for writing, [main] raises
    the exception of [open]; nothing has been written and the files are as
    they were. *)
Theorem main_open_failure (s : State) (names : list string)
        (e : Exception) :
  os_path_exists PDF_SOURCE_DIR = true ->
  os_listdir PDF_SOURCE_DIR = inr names ->
  source_texts names <> [] ->
  open_w OUTPUT_TEXT_FILE = inl e ->
  let r := main s in
  outcome r = inl e /\
  files (final r) = files s /\
  existsb is_write (trace r) = false.
Proof.
  intros Hdir Hlist Htexts Hopen r. subst r.
  destruct (main_some_text s names Hdir Hlist Htexts)
    as (t & Hquiet & _ & ->).
  rewrite bind_lift, Hopen. unfold after. cbn [trace final outcome].
  split; [reflexivity |]. split; [reflexivity |].
  rewrite app_nil_r. exact Hquiet.
Qed.

(** X16.  The listing of the source directory is outside every [try]: when
    [os.listdir] raises (the path exists but cannot be listed), the
    extractor and [main] raise the same exception, and nothing is
    written. *)
Theorem main_listdir_failure (s : State) (e : Exception) :
  os_path_exists PDF_SOURCE_DIR = true ->
  os_listdir PDF_SOURCE_DIR = inl e ->
  outcome (extract_text_from_pdfs PDF_SOURCE_DIR s) = inl e /\
  outcome (main s) = inl e /\
  files (final (main s)) = files s /\
  existsb is_write (trace (main s)) = false.
Proof.
  intros Hdir Hlist.
  pose proof (extract_listdir_raises PDF_SOURCE_DIR s e Hdir Hlist) as Hrun.
  split; [rewrite Hrun; reflexivity |].
  unfold main. rewrite (bind_run_raised _ _ _ _ _ _ Hrun).
  repeat split.
Qed.

End Script.

(** *** The theorems at concrete directories *)

Definition locked : Exception :=
  mkExc "PermissionError" "[Errno 13] Permission denied".

(** The clinic directory on a disk where the output cannot be opened. *)
Definition read_only : Libs :=
  {| Page := Exception + string;
     os_path_exists := fun _ => true;
     os_listdir := fun _ => inr Demo.clinic_names;
     os_path_join := fun dir name => dir ++ "/" ++ name;
     PdfReader := Demo.find_pdf Demo.clinic_pdfs;
     extract_text := fun page => page;
     open_w := fun _ => inl locked |}.

(** A source path that exists but cannot be listed. *)
Definition unlistable : Libs :=
  {| Page := Exception + string;
     os_path_exists := fun _ => true;
     os_listdir := fun _ => inl locked;
     os_path_join := fun dir name => dir ++ "/" ++ name;
     PdfReader := Demo.find_pdf [];
     extract_text := fun page => page;
     open_w := fun _ => inr tt |}.

Definition two_files : State :=
  mkState [("notes.txt", "keep"); ("knowledge_base.txt", "old text")] "".

Lemma main_writes_knowledge_base_witness :
  os_path_exists (Libs := clinic) PDF_SOURCE_DIR = true /\
  os_listdir (Libs := clinic) PDF_SOURCE_DIR = inr Demo.clinic_names /\
  source_texts (L := clinic) Demo.clinic_names
  = ["Influenza"; "Rest."; "Page one"] /\
  open_w (Libs := clinic) OUTPUT_TEXT_FILE = inr tt /\
  read_file "knowledge_base.txt" (files (final (main (L := clinic) two_files)))
  = Some ("Influenza" ++ nl ++ nl ++ "Rest." ++ nl ++ nl ++ "Page one"
          ++ nl ++ nl) /\
  read_file "notes.txt" (files (final (main (L := clinic) two_files)))
  = Some "keep".
Proof.
  split; [reflexivity |]. split; [reflexivity |]. split; [reflexivity |].
  split; [reflexivity |].
  destruct (main_writes_knowledge_base (L := clinic) two_files
              Demo.clinic_names eq_refl eq_refl)
    as (Hnew & Hold & _); [discriminate | reflexivity |].
  split; [exact Hnew |].
  rewrite (Hold "notes.txt") by discriminate. reflexivity.
Defined.

Lemma main_open_failure_witness :
  open_w (Libs := read_only) OUTPUT_TEXT_FILE = inl locked /\
  outcome (main (L := read_only) two_files) = inl locked /\
  files (final (main (L := read_only) two_files)) = files two_files.
Proof.
  split; [reflexivity |].
  destruct (main_open_failure (L := read_only) two_files Demo.clinic_names
              locked eq_refl eq_refl)
    as (Hout & Hfiles & _); [discriminate | reflexivity |].
  split; [exact Hout | exact Hfiles].
Defined.

Lemma main_listdir_failure_witness :
  os_listdir (Libs := unlistable) PDF_SOURCE_DIR = inl locked /\
  outcome (main (L := unlistable) two_files) = inl locked.
Proof.
  split; [reflexivity |].
  apply (main_listdir_failure (L := unlistable) two_files locked);
    reflexivity.
Defined.

End PrepareDataExtra.


(** ** The ingestion pipeline after the load *)

Module IngestDataExtra.
Import IngestData Runs.

Definition is_makedirs (e : Event) : bool :=
  match e with Makedirs _ => true | _ => false end.

Definition is_from_documents (e : Event) : bool :=
  match e with FromDocuments _ _ _ => true | _ => false end.

Lemma after_after {E S A} (t u : list E) (r : Run E S A) :
  after t (after u r) = after (t ++ u) r.
Proof. unfold after; cbn. rewrite app_assoc. reflexivity. Qed.

Section Pipeline.
Context {L : Libs}.

(** The disk once the model cache directory is there. *)
Definition with_cache (d : Disk) : Disk :=
  mkDisk (chroma_db d) (MODEL_CACHE_DIR :: dirs d).

(** The end of [main]: loading the embedding model and writing the chunks
    to the vector store. *)
Definition store_texts (texts : list Document) : Prog Event Disk unit :=
  (embedding_function <-
     call (LoadEmbeddings EMBEDDING_MODEL_NAME MODEL_CACHE_DIR)
          (SentenceTransformerEmbeddings EMBEDDING_MODEL_NAME
                                         MODEL_CACHE_DIR) ;;
   print "Embedding model loaded." ;;
   print ("Creating/loading persistent vector store at '"
          ++ CHROMA_PERSIST_DIR ++ "'...") ;;
   db <- from_documents texts embedding_function ;;
   print "--- Data Ingestion Complete ---" ;;
   count <- lift (collection_count db) ;;
   print ("Vector store created with " ++ str_of_nat count
          ++ " documents.") ;;
   print ("Database saved to '" ++ CHROMA_PERSIST_DIR ++ "'."))%prog.

(** What [Chroma.from_documents] answers on a disk. *)
Definition written (texts : list Document) (emb : Embeddings) (d : Disk)
  : Store * (Exception + Db) :=
  Chroma_from_documents texts emb CHROMA_PERSIST_DIR COLLECTION_NAME
                        (chroma_db d).

(** The disk after the write. *)
Definition stored (texts : list Document) (emb : Embeddings) (d : Disk)
  : Disk :=
  mkDisk (fst (written texts emb d)) (dirs d).

Lemma store_texts_run (texts : list Document) (d : Disk) :
  store_texts texts d
  = match SentenceTransformerEmbeddings EMBEDDING_MODEL_NAME
                                        MODEL_CACHE_DIR with
    | inl e =>
        mkRun [LoadEmbeddings EMBEDDING_MODEL_NAME MODEL_CACHE_DIR] d (inl e)
    | inr emb =>
        after [LoadEmbeddings EMBEDDING_MODEL_NAME MODEL_CACHE_DIR;
               Print "Embedding model loaded.";
               Print ("Creating/loading persistent vector store at '"
                      ++ CHROMA_PERSIST_DIR ++ "'...");
               FromDocuments texts CHROMA_PERSIST_DIR COLLECTION_NAME]
              (match snd (written texts emb d) with
               | inl e => mkRun [] (stored texts emb d) (inl e)
               | inr db =>
                   match collection_count db with
                   | inl e =>
                       mkRun [Print "--- Data Ingestion Complete ---"]
                             (stored texts emb d) (inl e)
                   | inr count =>
                       mkRun [Print "--- Data Ingestion Complete ---";
                              Print ("Vector store created with "
                                     ++ str_of_nat count ++ " documents.");
                              Print ("Database saved to '"
                                     ++ CHROMA_PERSIST_DIR ++ "'.")]
                             (stored texts emb d) (inr tt)
                   end
               end)
    end.
Proof.
  unfold store_texts, print. rewrite bind_call.
  destruct (SentenceTransformerEmbeddings _ _) as [e | emb];
    [reflexivity |].
  steps. unfold stored, written.
  destruct (snd (Chroma_from_documents texts emb CHROMA_PERSIST_DIR
                   COLLECTION_NAME (chroma_db d))) as [e | db] eqn:Hw.
  - rewrite (bind_run_raised _ _ d
               [FromDocuments texts CHROMA_PERSIST_DIR COLLECTION_NAME]
               (mkDisk (fst (Chroma_from_documents texts emb
                               CHROMA_PERSIST_DIR COLLECTION_NAME
                               (chroma_db d))) (dirs d)) e)
      by (unfold from_documents; rewrite Hw; reflexivity).
    reflexivity.
  - rewrite (bind_run _ _ d
               [FromDocuments texts CHROMA_PERSIST_DIR COLLECTION_NAME]
               (mkDisk (fst (Chroma_from_documents texts emb
                               CHROMA_PERSIST_DIR COLLECTION_NAME
                               (chroma_db d))) (dirs d)) db)
      by (unfold from_documents; rewrite Hw; reflexivity).
    step. rewrite bind_lift.
    destruct (collection_count db) as [e | count]; [reflexivity |].
    steps. reflexivity.
Qed.

(** [main] when the load returns: the loaded documents go to [ingest]. *)
Lemma main_loaded (d : Disk) (documents : list Document) :
  TextLoader_load KNOWLEDGE_BASE_FILE = inr documents ->
  main d
  = after [Print "--- Starting Data Ingestion Process ---";
           Load KNOWLEDGE_BASE_FILE;
           Print ("Successfully loaded '" ++ KNOWLEDGE_BASE_FILE ++ "'.")]
          (ingest documents d).
Proof.
  intros Hload. unfold main, print. step.
  rewrite (bind_run _ _ d
             [Load KNOWLEDGE_BASE_FILE;
              Print ("Successfully loaded '" ++ KNOWLEDGE_BASE_FILE ++ "'.")]
             d (Some documents)).
  - rewrite after_after. reflexivity.
  - unfold load_knowledge_base, print.
    rewrite try_except_run, bind_call, Hload. reflexivity.
Qed.

(** [ingest] by cases on the splitter and on the cache directory. *)
Lemma ingest_run (documents : list Document) (d : Disk) :
  ingest documents d
  = match split_documents text_splitter documents with
    | inl e => mkRun [Split text_splitter documents] d (inl e)
    | inr texts =>
        after [Split text_splitter documents;
               Print ("Split document into "
                      ++ str_of_nat (List.length texts) ++ " chunks.");
               Print ("Loading embedding model: '" ++ EMBEDDING_MODEL_NAME
                      ++ "'...")]
              (if os_path_exists MODEL_CACHE_DIR d then store_texts texts d
               else
                 match os_makedirs MODEL_CACHE_DIR with
                 | inl e => mkRun [Makedirs MODEL_CACHE_DIR] d (inl e)
                 | inr _ =>
                     after [Makedirs MODEL_CACHE_DIR]
                           (store_texts texts (with_cache d))
                 end)
    end.
Proof.
  unfold ingest, print. rewrite bind_call.
  destruct (split_documents text_splitter documents) as [e | texts];
    [reflexivity |].
  steps. destruct (os_path_exists MODEL_CACHE_DIR d); cbn [negb].
  - step. reflexivity.
  - destruct (os_makedirs MODEL_CACHE_DIR) as [e | []] eqn:Hmk.
    + rewrite (bind_run_raised _ _ d [Makedirs MODEL_CACHE_DIR] d e)
        by (rewrite bind_call; reflexivity).
      reflexivity.
    + rewrite (bind_run _ _ d [Makedirs MODEL_CACHE_DIR] (with_cache d) tt)
        by (rewrite bind_call; reflexivity).
      reflexivity.
Qed.

(** What the store is asked and what it keeps do not depend on the cache
    directory. *)
Lemma written_with_cache (texts : list Document) (emb : Embeddings)
      (d : Disk) :
  written texts emb (with_cache d) = written texts emb d.
Proof. reflexivity. Qed.

(** X17.  When every step succeeds, [main] splits the loaded documents
    with the 1000/200 splitter, hands exactly the chunks the splitter
    returned to the vector store, under the persist directory and the
    collection name of the script, prints the number of chunks and the
    count the store reports, and leaves on disk what the store wrote. *)
Theorem ingest_success (d : Disk) (documents texts : list Document)
        (emb : Embeddings) (db : Db) (count : nat) :
  TextLoader_load KNOWLEDGE_BASE_FILE = inr documents ->
  split_documents text_splitter documents = inr texts ->
  os_path_exists MODEL_CACHE_DIR d = true ->
  SentenceTransformerEmbeddings EMBEDDING_MODEL_NAME MODEL_CACHE_DIR
  = inr emb ->
  snd (written texts emb d) = inr db ->
  collection_count db = inr count ->
  let r := main d in
  filter is_pipeline_step (trace r)
  = [Split (RecursiveCharacterTextSplitter 1000 200) documents;
     LoadEmbeddings "sentence-transformers/all-MiniLM-L6-v2" "model_cache";
     FromDocuments texts "chroma_db" "medical_knowledge"] /\
  In (Print ("Split document into " ++ str_of_nat (List.length texts)
             ++ " chunks.")) (trace r) /\
  In (Print ("Vector store created with " ++ str_of_nat count
             ++ " documents.")) (trace r) /\
  chroma_db (final r) = fst (written texts emb d) /\
  dirs (final r) = dirs d /\
  outcome r = inr tt.
Proof.
  intros Hload Hsplit Hcache Hemb Hwrite Hcount r. subst r.
  rewrite (main_loaded d documents Hload), ingest_run, Hsplit, Hcache.
  rewrite store_texts_run, Hemb, Hwrite, Hcount.
  unfold after. cbn [trace final outcome app].
  split; [reflexivity |].
  split; [do 4 right; left; reflexivity |].
  split; [do 11 right; left; reflexivity |].
  repeat split.
Qed.

(** X18.  The model cache directory is created only when it is missing:
    if it exists, [os.makedirs] is not called and the directories are as
    before; if it is missing, [os.makedirs] is called once before the
    embedding model is loaded, and when that call raises, [main] raises
    and nothing else has changed. *)
Theorem ingest_cache_directory (d : Disk) (documents texts : list Document) :
  TextLoader_load KNOWLEDGE_BASE_FILE = inr documents ->
  split_documents text_splitter documents = inr texts ->
  let r := main d in
  (os_path_exists MODEL_CACHE_DIR d = true ->
   existsb is_makedirs (trace r) = false /\ dirs (final r) = dirs d) /\
  (os_path_exists MODEL_CACHE_DIR d = false ->
   filter is_makedirs (trace r) = [Makedirs "model_cache"] /\
   (os_makedirs MODEL_CACHE_DIR = inr tt ->
    dirs (final r) = "model_cache" :: dirs d) /\
   (forall e, os_makedirs MODEL_CACHE_DIR = inl e ->
              outcome r = inl e /\ final r = d)).
Proof.
  intros Hload Hsplit r. subst r.
  rewrite (main_loaded d documents Hload), ingest_run, Hsplit.
  split; intros Hcache; rewrite Hcache.
  - rewrite store_texts_run.
    destruct (SentenceTransformerEmbeddings _ _) as [e | emb];
      [split; reflexivity |].
    destruct (snd (written texts emb d)) as [e | db];
      [split; reflexivity |].
    destruct (collection_count db); split; reflexivity.
  - destruct (os_makedirs MODEL_CACHE_DIR) as [e | []].
    + split; [reflexivity |]. split; [discriminate |].
      intros e' He'. injection He' as <-. split; reflexivity.
    + rewrite store_texts_run.
      destruct (SentenceTransformerEmbeddings _ _) as [e | emb].
      * split; [reflexivity |]. split; [reflexivity | discriminate].
      * destruct (snd (written texts emb (with_cache d))) as [e | db];
          [split; [reflexivity |]; split; [reflexivity | discriminate] |].
        destruct (collection_count db);
          (split; [reflexivity |]; split; [reflexivity | discriminate]).
Qed.

(** X19.  Only the load has a handler: when the splitter raises, or the
    cache directory is missing and cannot be created, or the embedding
    model cannot be loaded (with the cache directory there from the start
    or just created), [main] raises that exception, the vector store is
    not called and what it keeps on disk is untouched. *)
Theorem ingest_failure_before_store (d : Disk) (documents : list Document)
        (e : Exception) :
  TextLoader_load KNOWLEDGE_BASE_FILE = inr documents ->
  split_documents text_splitter documents = inl e
  \/ (exists texts,
        split_documents text_splitter documents = inr texts /\
        (os_path_exists MODEL_CACHE_DIR d = false /\
         os_makedirs MODEL_CACHE_DIR = inl e
         \/ (os_path_exists MODEL_CACHE_DIR d = true
             \/ os_makedirs MODEL_CACHE_DIR = inr tt) /\
            SentenceTransformerEmbeddings EMBEDDING_MODEL_NAME
                                          MODEL_CACHE_DIR = inl e)) ->
  let r := main d in
  outcome r = inl e /\
  chroma_db (final r) = chroma_db d /\
  existsb is_from_documents (trace r) = false.
Proof.
  intros Hload Hfail r. subst r.
  rewrite (main_loaded d documents Hload), ingest_run.
  destruct Hfail as [Hsplit | (texts & Hsplit & Hrest)]; rewrite Hsplit;
    [repeat split |].
  destruct Hrest as [[Hcache Hmk] | [Hready Hemb]].
  - rewrite Hcache, Hmk. repeat split.
  - destruct (os_path_exists MODEL_CACHE_DIR d) eqn:Hcache.
    + rewrite store_texts_run, Hemb. repeat split.
    + destruct Hready as [Habs | Hmk]; [discriminate |].
      rewrite Hmk, store_texts_run, Hemb. repeat split.
Qed.

(** X20.  When the write to the vector store raises (the cache directory
    was there or has just been created), [main] raises the same exception
    right after the call: that call is the last event of the run, so no
    completion line is printed, and the disk holds whatever the store left
    behind. *)
Theorem ingest_store_failure (d : Disk) (documents texts : list Document)
        (emb : Embeddings) (e : Exception) :
  TextLoader_load KNOWLEDGE_BASE_FILE = inr documents ->
  split_documents text_splitter documents = inr texts ->
  os_path_exists MODEL_CACHE_DIR d = true
  \/ os_makedirs MODEL_CACHE_DIR = inr tt ->
  SentenceTransformerEmbeddings EMBEDDING_MODEL_NAME MODEL_CACHE_DIR
  = inr emb ->
  snd (written texts emb d) = inl e ->
  let r := main d in
  outcome r = inl e /\
  (exists before,
     trace r
     = (before ++ [FromDocuments texts "chroma_db" "medical_knowledge"])%list
     /\ forallb (fun ev => negb (is_from_documents ev)) before = true)
  /\ chroma_db (final r) = fst (written texts emb d).
Proof.
  intros Hload Hsplit Hready Hemb Hwrite r. subst r.
  rewrite (main_loaded d documents Hload), ingest_run, Hsplit.
  destruct (os_path_exists MODEL_CACHE_DIR d) eqn:Hcache.
  - rewrite store_texts_run, Hemb, Hwrite.
    unfold after. cbn [trace final outcome app].
    split; [reflexivity |]. split; [| reflexivity].
    eexists (_ :: _ :: _ :: _ :: _ :: _ :: _ :: _ :: _ :: []).
    split; reflexivity.
  - destruct Hready as [Habs | Hmk]; [discriminate |].
    rewrite Hmk, store_texts_run, Hemb, written_with_cache, Hwrite.
    unfold after. cbn [trace final outcome app].
    split; [reflexivity |]. split; [| reflexivity].
    eexists (_ :: _ :: _ :: _ :: _ :: _ :: _ :: _ :: _ :: _ :: []).
    split; reflexivity.
Qed.

(** After a write that returned, a failing [count()] makes [main] raise
    once the completion line is printed; the disk holds what the store
    wrote. *)
Lemma ingest_count_failure (d : Disk) (documents texts : list Document)
      (emb : Embeddings) (db : Db) (e : Exception) :
  TextLoader_load KNOWLEDGE_BASE_FILE = inr documents ->
  split_documents text_splitter documents = inr texts ->
  os_path_exists MODEL_CACHE_DIR d = true ->
  SentenceTransformerEmbeddings EMBEDDING_MODEL_NAME MODEL_CACHE_DIR
  = inr emb ->
  snd (written texts emb d) = inr db ->
  collection_count db = inl e ->
  let r := main d in
  outcome r = inl e /\
  (exists before,
     trace r = (before ++ [Print "--- Data Ingestion Complete ---"])%list) /\
  chroma_db (final r) = fst (written texts emb d).
Proof.
  intros Hload Hsplit Hcache Hemb Hwrite Hcount r. subst r.
  rewrite (main_loaded d documents Hload), ingest_run, Hsplit, Hcache.
  rewrite store_texts_run, Hemb, Hwrite, Hcount.
  unfold after. cbn [trace final outcome app].
  split; [reflexivity |]. split; [| reflexivity].
  eexists (_ :: _ :: _ :: _ :: _ :: _ :: _ :: _ :: _ :: _ :: []).
  reflexivity.
Qed.

End Pipeline.

(** *** The theorems at concrete hosts *)

Definition full : Exception := mkExc "OSError" "No space left on device".

(** A host by what the splitter, the embedding model and the store do;
    the knowledge base is one short text, which the splitter hands back as
    one chunk. *)
Definition host (split : Exception + unit) (embeddings : Exception + unit)
  (store : Exception + unit) : Libs :=
  {| Embeddings := unit;
     Store := list Document;
     Db := list Document;
     TextLoader_load := fun _ => inr [mkDocument "Fever is a symptom."];
     split_documents := fun _ documents =>
       match split with
       | inr _ => inr documents
       | inl e => inl e
       end;
     os_makedirs := fun _ => inr tt;
     SentenceTransformerEmbeddings := fun _ _ => embeddings;
     Chroma_from_documents := fun documents _ _ _ kept =>
       match store with
       | inr _ => ((kept ++ documents)%list, inr (kept ++ documents)%list)
       | inl e => (kept, inl e)
       end;
     collection_count := fun db => inr (List.length db) |}.

Definition sound : Libs := host (inr tt) (inr tt) (inr tt).
Definition no_embeddings : Libs := host (inr tt) (inl full) (inr tt).
Definition no_room : Libs := host (inr tt) (inr tt) (inl full).

Definition earlier : list Document := [mkDocument "an earlier chunk"].

Lemma ingest_success_witness :
  os_path_exists (L := sound) MODEL_CACHE_DIR
                 (mkDisk (L := sound) earlier ["model_cache"]) = true /\
  chroma_db (final (main (L := sound)
                      (mkDisk (L := sound) earlier ["model_cache"])))
  = [mkDocument "an earlier chunk"; mkDocument "Fever is a symptom."].
Proof.
  split; [reflexivity |].
  destruct (ingest_success (L := sound)
              (mkDisk (L := sound) earlier ["model_cache"])
              [mkDocument "Fever is a symptom."]
              [mkDocument "Fever is a symptom."] tt
              [mkDocument "an earlier chunk";
               mkDocument "Fever is a symptom."] 2
              eq_refl eq_refl eq_refl eq_refl eq_refl eq_refl)
    as (_ & _ & _ & Hstore & _).
  exact Hstore.
Defined.

Lemma ingest_cache_directory_witness :
  os_path_exists (L := sound) MODEL_CACHE_DIR
                 (mkDisk (L := sound) earlier []) = false /\
  os_makedirs (Libs := sound) MODEL_CACHE_DIR = inr tt /\
  dirs (final (main (L := sound) (mkDisk (L := sound) earlier [])))
  = ["model_cache"].
Proof.
  split; [reflexivity |]. split; [reflexivity |].
  destruct (ingest_cache_directory (L := sound)
              (mkDisk (L := sound) earlier [])
              [mkDocument "Fever is a symptom."]
              [mkDocument "Fever is a symptom."] eq_refl eq_refl)
    as (_ & Hmissing).
  destruct (Hmissing eq_refl) as (_ & Hmade & _).
  exact (Hmade eq_refl).
Defined.

(** A first run: the cache directory is missing, it is created, and then
    the embedding model fails to load. *)
Lemma ingest_failure_before_store_witness :
  os_path_exists (L := no_embeddings) MODEL_CACHE_DIR
                 (mkDisk (L := no_embeddings) earlier []) = false /\
  os_makedirs (Libs := no_embeddings) MODEL_CACHE_DIR = inr tt /\
  SentenceTransformerEmbeddings (Libs := no_embeddings) EMBEDDING_MODEL_NAME
                                MODEL_CACHE_DIR = inl full /\
  outcome (main (L := no_embeddings)
             (mkDisk (L := no_embeddings) earlier []))
  = inl full /\
  chroma_db (final (main (L := no_embeddings)
                      (mkDisk (L := no_embeddings) earlier [])))
  = earlier.
Proof.
  split; [reflexivity |]. split; [reflexivity |]. split; [reflexivity |].
  destruct (ingest_failure_before_store (L := no_embeddings)
              (mkDisk (L := no_embeddings) earlier [])
              [mkDocument "Fever is a symptom."] full eq_refl
              (or_intror
                 (ex_intro _ [mkDocument "Fever is a symptom."]
                    (conj eq_refl
                       (or_intror (conj (or_intror eq_refl) eq_refl))))))
    as (Hout & Hstore & _).
  split; [exact Hout | exact Hstore].
Defined.

(** A first run: the cache directory is created, then the write fails. *)
Lemma ingest_store_failure_witness :
  os_path_exists (L := no_room) MODEL_CACHE_DIR
                 (mkDisk (L := no_room) earlier []) = false /\
  os_makedirs (Libs := no_room) MODEL_CACHE_DIR = inr tt /\
  snd (written (L := no_room) [mkDocument "Fever is a symptom."] tt
               (mkDisk (L := no_room) earlier []))
  = inl full /\
  outcome (main (L := no_room) (mkDisk (L := no_room) earlier []))
  = inl full.
Proof.
  split; [reflexivity |]. split; [reflexivity |]. split; [reflexivity |].
  apply (ingest_store_failure (L := no_room)
           (mkDisk (L := no_room) earlier [])
           [mkDocument "Fever is a symptom."]
           [mkDocument "Fever is a symptom."] tt full);
    try reflexivity.
  right. reflexivity.
Defined.

End IngestDataExtra.


(** ** How the three scripts fit together *)

Module Wiring.
Import Runs.

Lemma not_in_quiet (t : list PrepareData.Event) (path contents : string) :
  existsb PrepareData.is_write t = false ->
  In (PrepareData.WriteFile path contents) t -> False.
Proof.
  intros Hquiet Hin.
  assert (Hsome : existsb PrepareData.is_write t = true)
    by (apply existsb_exists; eexists; split; [exact Hin | reflexivity]).
  rewrite Hquiet in Hsome. discriminate.
Qed.

(** Whatever happens, the only file the extractor's [main] writes is its
    output file. *)
Lemma extractor_writes_output_only {L : PrepareData.Libs}
      (s : PrepareData.State) (path contents : string) :
  In (PrepareData.WriteFile path contents) (trace (PrepareData.main s)) ->
  path = PrepareData.OUTPUT_TEXT_FILE.
Proof.
  destruct (PrepareDataProofs.extract_harmless PrepareData.PDF_SOURCE_DIR s)
    as [_ Hquiet].
  unfold PrepareData.main.
  destruct (PrepareData.extract_text_from_pdfs PrepareData.PDF_SOURCE_DIR s)
    as [t s' [e | text]] eqn:Hrun; cbn [trace] in Hquiet.
  - rewrite (bind_run_raised _ _ _ _ _ _ Hrun). cbn [trace].
    intros Hin. destruct (not_in_quiet _ _ _ Hquiet Hin).
  - rewrite (bind_run _ _ _ _ _ _ Hrun).
    destruct (str_bool text).
    + rewrite bind_lift.
      destruct (PrepareData.open_w PrepareData.OUTPUT_TEXT_FILE) as [e | []].
      * unfold after. cbn [trace]. rewrite app_nil_r.
        intros Hin. destruct (not_in_quiet _ _ _ Hquiet Hin).
      * unfold PrepareData.print. steps. unfold after, emit. cbn [trace].
        intros Hin. apply in_app_or in Hin as [Hin | Hin];
          [destruct (not_in_quiet _ _ _ Hquiet Hin) |].
        cbn [app In] in Hin.
        destruct Hin as [Hin | [Hin | [Hin | []]]]; try discriminate.
        injection Hin as <- _. reflexivity.
    + unfold after, PrepareData.print, emit. cbn [trace].
      intros Hin. apply in_app_or in Hin as [Hin | Hin];
        [destruct (not_in_quiet _ _ _ Hquiet Hin) |].
      destruct Hin as [Hin | []]. discriminate.
Qed.

(** The ingestion always tries to load its knowledge-base file. *)
Lemma ingestion_loads_knowledge_base {L : IngestData.Libs}
      (d : IngestData.Disk) :
  In (IngestData.Load IngestData.KNOWLEDGE_BASE_FILE)
     (trace (IngestData.main d)).
Proof.
  destruct (IngestData.TextLoader_load IngestData.KNOWLEDGE_BASE_FILE)
    as [e | documents] eqn:Hload.
  - unfold IngestData.main, IngestData.print. step.
    rewrite (bind_run _ _ _ _ _ _
               (IngestDataProofs.load_failure_run d e Hload)).
    right. left. reflexivity.
  - rewrite (IngestDataExtra.main_loaded d documents Hload).
    right. left. reflexivity.
Qed.

(** X21.  The extractor and the ingestion meet at one file: whatever file
    the extractor's [main] writes, on any run, is the file that the
    ingestion's [main] loads. *)
Theorem extractor_feeds_ingestion {Lp : PrepareData.Libs}
        {Li : IngestData.Libs} (s : PrepareData.State)
        (path contents : string) (d : IngestData.Disk) :
  In (PrepareData.WriteFile path contents) (trace (PrepareData.main s)) ->
  In (IngestData.Load path) (trace (IngestData.main d)).
Proof.
  intros Hwritten.
  rewrite (extractor_writes_output_only s path contents Hwritten).
  apply ingestion_loads_knowledge_base.
Qed.

Lemma extractor_feeds_ingestion_witness :
  In (PrepareData.WriteFile "knowledge_base.txt"
        ("Influenza" ++ nl ++ nl ++ "Rest." ++ nl ++ nl ++ "Page one"
         ++ nl ++ nl))
     (trace (PrepareData.main (L := PrepareDataProofs.clinic)
                              PrepareDataProofs.old_disk)) /\
  In (IngestData.Load "knowledge_base.txt")
     (trace (IngestData.main (L := IngestDataExtra.sound)
               (IngestData.mkDisk (L := IngestDataExtra.sound) [] []))).
Proof.
  assert (Hwritten :
    In (PrepareData.WriteFile "knowledge_base.txt"
          ("Influenza" ++ nl ++ nl ++ "Rest." ++ nl ++ nl ++ "Page one"
           ++ nl ++ nl))
       (trace (PrepareData.main (L := PrepareDataProofs.clinic)
                                PrepareDataProofs.old_disk))).
  { assert (Htrace :
      trace (PrepareData.main (L := PrepareDataProofs.clinic)
                              PrepareDataProofs.old_disk)
      = [PrepareData.Print "Scanning for PDF files in 'medical_data'...";
         PrepareData.Print "Found 2 PDF(s). Extracting text...";
         PrepareData.OpenPdf "medical_data/Flu.PDF";
         PrepareData.Print " - Successfully extracted text from Flu.PDF";
         PrepareData.OpenPdf "medical_data/bad.pdf";
         PrepareData.Print " - Could not read bad.pdf: EOF marker not found";
         PrepareData.WriteFile "knowledge_base.txt"
           ("Influenza" ++ nl ++ nl ++ "Rest." ++ nl ++ nl ++ "Page one"
            ++ nl ++ nl);
         PrepareData.Print
           (nl ++ "Successfully extracted and saved text to 'knowledge_base.txt'.");
         PrepareData.Print "Total characters extracted: 28"])
      by (vm_compute; reflexivity).
    rewrite Htrace. do 6 right. left. reflexivity. }
  split; [exact Hwritten |].
  exact (extractor_feeds_ingestion (Lp := PrepareDataProofs.clinic)
           (Li := IngestDataExtra.sound) _ _ _ _ Hwritten).
Defined.

(** Where an event of the ingestion points to: the model name and cache
    folder of an embedding load, the directory and collection of a write to
    the vector store. *)
Definition on_target (ev : IngestData.Event) : Prop :=
  match ev with
  | IngestData.LoadEmbeddings model_name cache_folder =>
      model_name = IngestData.EMBEDDING_MODEL_NAME /\
      cache_folder = IngestData.MODEL_CACHE_DIR
  | IngestData.FromDocuments _ dir collection =>
      dir = IngestData.CHROMA_PERSIST_DIR /\
      collection = IngestData.COLLECTION_NAME
  | _ => True
  end.

(** Every embedding load and every write of the ingestion, on any run,
    names the constants of the script. *)
Lemma ingestion_on_target {L : IngestData.Libs} (d : IngestData.Disk) :
  Forall on_target (trace (IngestData.main d)).
Proof.
  destruct (IngestData.TextLoader_load IngestData.KNOWLEDGE_BASE_FILE)
    as [e | documents] eqn:Hload.
  { unfold IngestData.main, IngestData.print. step.
    rewrite (bind_run _ _ _ _ _ _
               (IngestDataProofs.load_failure_run d e Hload)).
    unfold after. cbn [trace app]. repeat constructor. }
  rewrite (IngestDataExtra.main_loaded d documents Hload),
    IngestDataExtra.ingest_run.
  destruct (IngestData.split_documents IngestData.text_splitter documents)
    as [e | texts];
    [unfold after; cbn [trace app]; repeat constructor |].
  assert (Hstore : forall d',
            Forall on_target (trace (IngestDataExtra.store_texts texts d'))).
  { intros d'. rewrite IngestDataExtra.store_texts_run.
    destruct (IngestData.SentenceTransformerEmbeddings _ _) as [e | emb];
      [repeat constructor |].
    destruct (snd (IngestDataExtra.written texts emb d')) as [e | db];
      [unfold after; cbn [trace app]; repeat constructor |].
    destruct (IngestData.collection_count db);
      unfold after; cbn [trace app]; repeat constructor. }
  destruct (IngestData.os_path_exists IngestData.MODEL_CACHE_DIR d).
  - unfold after. cbn [trace].
    apply Forall_app. split; [| apply Forall_app; split];
      [repeat constructor | repeat constructor | apply Hstore].
  - destruct (IngestData.os_makedirs IngestData.MODEL_CACHE_DIR)
      as [e | u].
    + unfold after. cbn [trace app]. repeat constructor.
    + unfold after. cbn [trace].
      apply Forall_app. split; [| apply Forall_app; split];
        [repeat constructor | repeat constructor |].
      apply Forall_app. split; [repeat constructor | apply Hstore].
Qed.

(** X22.  The ingestion and the server meet at one collection: whenever the
    ingestion writes to the vector store, the directory and collection it
    names are the ones the server's startup hook opens, and whenever it
    loads the embedding model, the model name and cache folder are the
    ones the startup hook loads. *)
Theorem ingestion_feeds_server {Li : IngestData.Libs} {Lm : Main.Libs}
        (d : IngestData.Disk) (g : Main.Globals) :
  Main.os_path_exists Main.CHROMA_PERSIST_DIR = true ->
  (forall model_name cache_folder,
     In (IngestData.LoadEmbeddings model_name cache_folder)
        (trace (IngestData.main d)) ->
     In (Main.LoadEmbeddings model_name cache_folder)
        (trace (Main.startup_event g))) /\
  (forall texts dir collection emb,
     In (IngestData.FromDocuments texts dir collection)
        (trace (IngestData.main d)) ->
     Main.SentenceTransformerEmbeddings Main.EMBEDDING_MODEL_NAME
                                        Main.MODEL_CACHE_DIR = inr emb ->
     In (Main.OpenChroma dir collection) (trace (Main.startup_event g))).
Proof.
  intros Hdir.
  pose proof (proj1 (Forall_forall _ _) (ingestion_on_target d)) as Htarget.
  split.
  - intros model_name cache_folder Hin.
    destruct (Htarget _ Hin) as [-> ->].
    unfold Main.startup_event, Main.print. step. rewrite Hdir.
    cbn [negb]. step.
    destruct (Main.SentenceTransformerEmbeddings _ _);
      right; left; reflexivity.
  - intros texts dir collection emb Hin Hemb.
    destruct (Htarget _ Hin) as [-> ->].
    unfold Main.startup_event, Main.print. step. rewrite Hdir.
    cbn [negb]. step. rewrite Hemb. step.
    destruct (Main.Chroma_new _ emb _);
      right; right; left; reflexivity.
Qed.

Lemma ingestion_feeds_server_witness :
  Main.os_path_exists (Libs := MainProofs.warm) Main.CHROMA_PERSIST_DIR
  = true /\
  In (Main.OpenChroma "chroma_db" "medical_knowledge")
     (trace (Main.startup_event (L := MainProofs.warm)
                                (Main.module_globals (L := MainProofs.warm)))).
Proof.
  split; [reflexivity |].
  destruct (ingestion_feeds_server (Li := IngestDataExtra.sound)
              (Lm := MainProofs.warm)
              (IngestData.mkDisk (L := IngestDataExtra.sound) []
                                 ["model_cache"])
              (Main.module_globals (L := MainProofs.warm)) eq_refl)
    as [_ Hstore].
  apply (Hstore [mkDocument "Fever is a symptom."] _ _ tt);
    [| reflexivity].
  assert (Hstep :
    nth_error
      (trace (IngestData.main (L := IngestDataExtra.sound)
                (IngestData.mkDisk (L := IngestDataExtra.sound) []
                                   ["model_cache"]))) 9
    = Some (IngestData.FromDocuments [mkDocument "Fever is a symptom."]
                                     "chroma_db" "medical_knowledge"))
    by (vm_compute; reflexivity).
  exact (nth_error_In _ _ Hstep).
Defined.

End Wiring.
